(** * doc-sorter: a shallow embedding of [doc_sorter.py]

    The development follows the source file function by function.
    Python values are modelled as follows.

    - A [str] is a [string]; each character stands for one code point in
      the range U+0000..U+00FF (Latin-1).  The character tables below
      ([py_isdecimal], [py_isword], [py_isspace], [py_isprintable],
      [py_lower_char]) are Python's tables restricted to that range.
    - A value produced by [json.loads] is a [json].
    - An exception is a value of [exn]; a call that may raise returns a
      [result].
    - The services the program talks to (the PDF libraries, the chat and
      vision endpoints, the file system) are the fields of a [Platform]
      and of the [World] the program runs in.
    - Each [print] appends a [message] to the console of the [World];
      a message names the line printed and keeps its variable parts. *)

From Stdlib Require Import Ascii NArith ZArith.
From stdpp Require Import base tactics option list strings pretty gmap.

Local Open Scope N_scope.

(** ** Characters *)

Module Char.

Definition code (c : ascii) : N := N_of_ascii c.

Definition between (lo hi : N) (c : ascii) : bool :=
  (lo <=? code c) && (code c <=? hi).

(** [\d] of the [re] module on [str] patterns: [str.isdecimal]. *)
Definition py_isdecimal (c : ascii) : bool := between 48 57 c.

(** [str.isalnum], the characters [\w] accepts besides the underscore. *)
Definition py_isalnum (c : ascii) : bool :=
  between 48 57 c || between 65 90 c || between 97 122 c
  || (code c =? 170) || between 178 179 c || (code c =? 181)
  || between 185 186 c || between 188 190 c
  || between 192 214 c || between 216 246 c || between 248 255 c.

(** [\w]. *)
Definition py_isword (c : ascii) : bool := py_isalnum c || (code c =? 95).

(** [str.isspace], the characters [str.strip()] removes. *)
Definition py_isspace (c : ascii) : bool :=
  between 9 13 c || between 28 32 c || (code c =? 133) || (code c =? 160).

(** [str.isprintable], as [repr] uses it. *)
Definition py_isprintable (c : ascii) : bool :=
  negb (between 0 31 c || between 127 160 c || (code c =? 173)).

(** [str.lower] on one character. *)
Definition py_lower_char (c : ascii) : ascii :=
  if between 65 90 c || (between 192 222 c && negb (code c =? 215))
  then ascii_of_N (code c + 32)
  else c.

End Char.

Local Close Scope N_scope.

(** ** Strings *)

Module Str.

Definition head (s : string) : option ascii :=
  match s with EmptyString => None | String c _ => Some c end.

Fixpoint nth (n : nat) (s : string) : option ascii :=
  match s, n with
  | EmptyString, _ => None
  | String c _, O => Some c
  | String _ s', S n' => nth n' s'
  end.

(** [s[:n]] *)
Fixpoint take (n : nat) (s : string) : string :=
  match n, s with
  | S n', String c s' => String c (take n' s')
  | _, _ => EmptyString
  end.

(** [s[n:]] *)
Fixpoint drop (n : nat) (s : string) : string :=
  match n, s with
  | S n', String _ s' => drop n' s'
  | _, _ => s
  end.

Fixpoint last (d : option ascii) (s : string) : option ascii :=
  match s with
  | EmptyString => d
  | String c s' => last (Some c) s'
  end.

Fixpoint map (f : ascii → ascii) (s : string) : string :=
  match s with
  | EmptyString => EmptyString
  | String c s' => String (f c) (map f s')
  end.

Fixpoint forallb (f : ascii → bool) (s : string) : bool :=
  match s with
  | EmptyString => true
  | String c s' => f c && forallb f s'
  end.

Fixpoint existsb (f : ascii → bool) (s : string) : bool :=
  match s with
  | EmptyString => false
  | String c s' => f c || existsb f s'
  end.

(** [s.startswith(p)] *)
Fixpoint startswith (p s : string) : bool :=
  match p, s with
  | EmptyString, _ => true
  | String a p', String b s' => bool_decide (a = b) && startswith p' s'
  | String _ _, EmptyString => false
  end.

(** [p in s] *)
Fixpoint contains (p s : string) : bool :=
  startswith p s ||
  match s with
  | EmptyString => false
  | String _ s' => contains p s'
  end.

(** [s.lower()] *)
Definition lower (s : string) : string := map Char.py_lower_char s.

(** ["\n"] *)
Definition newline : string := String "010"%char EmptyString.

(** [sep.join(l)] *)
Fixpoint join (sep : string) (l : list string) : string :=
  match l with
  | [] => ""
  | [x] => x
  | x :: l' => x +:+ sep +:+ join sep l'
  end.

Fixpoint lstrip (s : string) : string :=
  match s with
  | EmptyString => EmptyString
  | String c s' => if Char.py_isspace c then lstrip s' else s
  end.

Fixpoint rstrip (s : string) : string :=
  match s with
  | EmptyString => EmptyString
  | String c s' =>
      match rstrip s' with
      | EmptyString => if Char.py_isspace c then EmptyString else String c EmptyString
      | r => String c r
      end
  end.

(** [s.strip()] *)
Definition strip (s : string) : string := rstrip (lstrip s).

(** [s.replace(old, new)] for a non-empty [old]: the occurrences are
    found left to right and do not overlap.  [skip] counts the
    characters of the occurrence being replaced that are still to be
    passed over. *)
Fixpoint replace_go (old new : string) (skip : nat) (s : string) : string :=
  match s with
  | EmptyString => EmptyString
  | String c s' =>
      match skip with
      | S k => replace_go old new k s'
      | O =>
          if startswith old s
          then new +:+ replace_go old new (String.length old - 1) s'
          else String c (replace_go old new 0 s')
      end
  end.

Definition replace (old new s : string) : string := replace_go old new 0 s.

End Str.

(** ** The fragment of [re] that [redact_sensitive_info] uses

    A pattern is a sequence of items, each of which either consumes one
    character ([\d], a literal) or tests the position ([\b]). *)

Module Re.

Inductive item : Type :=
| WordB                (* \b *)
| Digit                (* \d *)
| Lit (c : ascii).     (* a literal character *)

Definition pattern : Type := list item.

(** [\d{n}] *)
Definition rep (n : nat) (i : item) : pattern := replicate n i.

(** Is the character at a position a word character?  Outside the
    string there is none. *)
Definition word_at (o : option ascii) : bool :=
  match o with Some c => Char.py_isword c | None => false end.

(** Match [p] at the front of [s], [prev] being the character before
    it.  The answer is the number of characters consumed. *)
Fixpoint match_here (p : pattern) (prev : option ascii) (s : string) : option nat :=
  match p with
  | [] => Some 0
  | WordB :: p' =>
      if xorb (word_at prev) (word_at (Str.head s))
      then match_here p' prev s else None
  | Digit :: p' =>
      match s with
      | String c s' =>
          if Char.py_isdecimal c then S <$> match_here p' (Some c) s' else None
      | EmptyString => None
      end
  | Lit a :: p' =>
      match s with
      | String c s' =>
          if bool_decide (a = c) then S <$> match_here p' (Some c) s' else None
      | EmptyString => None
      end
  end.

(** [re.sub(p, repl, s)]: scan left to right, replace each match by
    [repl] and resume after it.  [skip] counts the characters of the
    current match still to be passed over. *)
Fixpoint sub_go (p : pattern) (repl : string)
    (prev : option ascii) (skip : nat) (s : string) : string :=
  match s with
  | EmptyString =>
      match skip, match_here p prev EmptyString with
      | O, Some _ => repl
      | _, _ => EmptyString
      end
  | String c s' =>
      match skip with
      | S k => sub_go p repl (Some c) k s'
      | O =>
          match match_here p prev s with
          | Some (S k) => repl +:+ sub_go p repl (Some c) k s'
          | Some O => repl +:+ String c (sub_go p repl (Some c) 0 s')
          | None => String c (sub_go p repl (Some c) 0 s')
          end
      end
  end.

Definition sub (p : pattern) (repl s : string) : string :=
  sub_go p repl None 0 s.

Definition matches (p : pattern) (prev : option ascii) (s : string) : bool :=
  match match_here p prev s with Some _ => true | None => false end.

(** Does [p] match somewhere in [s]? *)
Fixpoint search (p : pattern) (prev : option ascii) (s : string) : bool :=
  match s with
  | EmptyString => matches p prev EmptyString
  | String c s' => matches p prev s || search p (Some c) s'
  end.

(** The shape the three patterns of the program share: [\b], a digit,
    then digits and literals, the last one a digit, then [\b].  [t0]
    is a character the literals avoid (the bracket that opens every
    replacement text); [after_digit] tells whether the item before is
    a digit. *)
Fixpoint tail_ok (t0 : ascii) (after_digit : bool) (p : pattern) : bool :=
  match p with
  | [] => false
  | WordB :: p' => after_digit && match p' with [] => true | _ => false end
  | Digit :: p' => tail_ok t0 true p'
  | Lit a :: p' => negb (bool_decide (a = t0)) && tail_ok t0 false p'
  end.

Definition shape (t0 : ascii) (p : pattern) : bool :=
  match p with
  | WordB :: Digit :: p' => tail_ok t0 true p'
  | _ => false
  end.

Definition digit_at (o : option ascii) : bool :=
  match o with Some c => Char.py_isdecimal c | None => false end.

Definition no_digit (s : string) : bool :=
  Str.forallb (λ c, negb (Char.py_isdecimal c)) s.

End Re.

(** ** [redact_sensitive_info] *)

Definition hyphen : ascii := "-"%char.

(** [r"\b\d{3}-\d{2}-\d{4}\b"] *)
Definition SSN_RE : Re.pattern :=
  [Re.WordB] ++ Re.rep 3 Re.Digit ++ [Re.Lit hyphen] ++ Re.rep 2 Re.Digit
  ++ [Re.Lit hyphen] ++ Re.rep 4 Re.Digit ++ [Re.WordB].

(** [r"\b\d{4}-\d{4}-\d{4}-\d{4}\b"] *)
Definition CARD_RE : Re.pattern :=
  [Re.WordB] ++ Re.rep 4 Re.Digit ++ [Re.Lit hyphen] ++ Re.rep 4 Re.Digit
  ++ [Re.Lit hyphen] ++ Re.rep 4 Re.Digit ++ [Re.Lit hyphen]
  ++ Re.rep 4 Re.Digit ++ [Re.WordB].

(** [r"\b\d{9}\b"] *)
Definition ACCOUNT_RE : Re.pattern :=
  [Re.WordB] ++ Re.rep 9 Re.Digit ++ [Re.WordB].

Definition redact_sensitive_info (text : string) : string :=
  let text := Re.sub SSN_RE "[REDACTED SSN]" text in
  let text := Re.sub CARD_RE "[REDACTED CARD]" text in
  let text := Re.sub ACCOUNT_RE "[REDACTED ACCOUNT]" text in
  text.

(** Every replacement text opens with a bracket. *)
Definition bracket : ascii := "["%char.

(** ** Python values and exceptions *)

(** What [json.loads] returns.  [JNull] is Python's [None]; a [float] is
    kept as the text Python prints for it. *)
#[warnings="-register-all"]
Inductive json : Type :=
| JNull
| JBool (b : bool)
| JInt (z : Z)
| JFloat (repr : string)
| JString (s : string)
| JArray (items : list json)
| JObject (fields : list (string * json)).

Inductive exn : Type :=
| KeyError (key : string)
| KeyErrorSlice (stop : nat)   (* KeyError(slice(None, stop, None)) *)
| AttributeError
| TypeError
| OSError.

Inductive result (A : Type) : Type :=
| Ok (a : A)
| Raise (e : exn).
Arguments Ok {A} a.
Arguments Raise {A} e.

Module Py.

Definition quote : ascii := "'"%char.
Definition dquote : ascii := "034"%char.
Definition backslash : ascii := "\"%char.

Definition hex_digit (n : N) : ascii :=
  if (n <? 10)%N then ascii_of_N (48 + n) else ascii_of_N (87 + n).

(** One character of [repr(s)], [q] being the quote in use. *)
Definition repr_char (q c : ascii) : string :=
  if bool_decide (c = q) || bool_decide (c = backslash)
  then String backslash (String c "")
  else if bool_decide (c = "009"%char) then "\t"
  else if bool_decide (c = "010"%char) then "\n"
  else if bool_decide (c = "013"%char) then "\r"
  else if Char.py_isprintable c then String c ""
  else String backslash (String "x"
         (String (hex_digit (Char.code c / 16))
            (String (hex_digit (Char.code c mod 16)) ""))).

Fixpoint repr_chars (q : ascii) (s : string) : string :=
  match s with
  | EmptyString => EmptyString
  | String c s' => repr_char q c +:+ repr_chars q s'
  end.

(** [repr(s)] for a [str]: single quotes, unless the text has a single
    quote and no double quote. *)
Definition repr_str (s : string) : string :=
  let q :=
    if Str.existsb (λ c, bool_decide (c = quote)) s
       && negb (Str.existsb (λ c, bool_decide (c = dquote)) s)
    then dquote else quote in
  String q (repr_chars q s +:+ String q "").

(** [repr(v)] *)
Fixpoint repr (v : json) : string :=
  match v with
  | JNull => "None"
  | JBool true => "True"
  | JBool false => "False"
  | JInt z => pretty z
  | JFloat r => r
  | JString s => repr_str s
  | JArray items => "[" +:+ Str.join ", " (map repr items) +:+ "]"
  | JObject fields =>
      "{" +:+ Str.join ", "
                (map (λ kv, repr_str (fst kv) +:+ ": " +:+ repr (snd kv)) fields)
          +:+ "}"
  end.

(** [str(v)], also what an f-string field [{v}] expands to. *)
Definition str (v : json) : string :=
  match v with
  | JString s => s
  | _ => repr v
  end.

(** [bool(v)] *)
Definition truthy (v : json) : bool :=
  match v with
  | JNull => false
  | JBool b => b
  | JInt z => negb (z =? 0)%Z
  | JFloat r => negb (bool_decide (r = "0.0") || bool_decide (r = "-0.0"))
  | JString s => negb (bool_decide (s = ""))
  | JArray items => negb (bool_decide (items = []))
  | JObject fields => match fields with [] => false | _ => true end
  end.

(** [v == s] for a [str] [s]: only a [str] can be equal to it. *)
Definition eq_str (v : json) (s : string) : bool :=
  match v with
  | JString x => bool_decide (x = s)
  | _ => false
  end.

(** The entry of a [dict] under a key. *)
Fixpoint lookup (key : string) (fields : list (string * json)) : option json :=
  match fields with
  | [] => None
  | (k, v) :: rest => if bool_decide (k = key) then Some v else lookup key rest
  end.

(** [v[key]] for a [str] key *)
Definition subscript (v : json) (key : string) : result json :=
  match v with
  | JObject fields =>
      match lookup key fields with
      | Some x => Ok x
      | None => Raise (KeyError key)
      end
  | _ => Raise TypeError
  end.

(** [v[:n]].  A slice can be hashed (Python 3.12 and later, which
    the nested quotes of line 97 need), so a [dict] looks it up as a key
    and does not find it. *)
Definition slice_to (n : nat) (v : json) : result json :=
  match v with
  | JString s => Ok (JString (Str.take n s))
  | JArray items => Ok (JArray (take n items))
  | JObject _ => Raise (KeyErrorSlice n)
  | _ => Raise TypeError
  end.

(** [s.endswith(suffix)] *)
Definition endswith (suffix s : string) : bool :=
  bool_decide (Str.drop (String.length s - String.length suffix) s = suffix)
  && (String.length suffix <=? String.length s).

(** [s.rfind(c)] for a one-character [c]; [i] is the index of the
    first character of [s]. *)
Fixpoint rfind_from (c : ascii) (i : Z) (s : string) : Z :=
  match s with
  | EmptyString => -1
  | String a s' =>
      let r := rfind_from c (i + 1) s' in
      if (0 <=? r)%Z then r else if bool_decide (a = c) then i else (-1)%Z
  end.

Definition rfind (c : ascii) (s : string) : Z := rfind_from c 0 s.

End Py.

(** ** The world outside the program *)

(** A rendered page ([PIL.Image]); the program reads the two sizes and
    passes the pixels on. *)
Record image : Type := { width : N; height : N; pixels : list N }.

(** The stacked image: [Image.new] followed by the [paste] calls. *)
Record canvas : Type := {
  canvas_width : N;
  canvas_height : N;
  pasted : list (image * (N * N))
}.

(** The libraries and the operating system.  [None] (or [false]) stands
    for a call that raises. *)
Class Platform : Type := {
  FS : Type;
  (** [os.path.join(a, *rest)] *)
  path_join : string → list string → string;
  (** [os.sep] and [os.altsep] *)
  path_sep : ascii;
  path_altsep : option ascii;
  (** the names [n] for which [os.path.exists(os.path.join(d, n))] *)
  dir_entries : FS → string → gset string;
  (** [os.makedirs(d, exist_ok=True)] *)
  makedirs : string → FS → bool * FS;
  (** [shutil.move(src, dst)] *)
  shutil_move : string → string → FS → bool * FS;
  (** [os.listdir(d)] *)
  listdir : FS → string → option (list string);
  (** [page.extract_text()] for each page of [pypdf.PdfReader(f)] *)
  pypdf_pages : FS → string → option (list (option string));
  (** [pypdfium2.PdfDocument(path)], and for each of its pages
      [page.render(scale=2.0).to_pil()] *)
  pdfium_pages : FS → string → option (list (option image));
  (** [encode_image]: PNG, then base64 *)
  encode_image : canvas → option string;
  (** the environment variable [DOCUMENT_PROMPT], escaped newlines
      already replaced *)
  DOCUMENT_PROMPT : string
}.

(** An answer of the chat endpoint: [openai.OpenAI()] raises, the
    request raises, or a body arrives, with what [json.loads] makes of it
    ([None] for [JSONDecodeError]). *)
Inductive chat_reply : Type :=
| ChatNoClient
| ChatFault
| ChatBody (body : string) (parsed : option json).

Inductive vision_reply : Type :=
| VisionNoClient
| VisionFault
| VisionText (content : string).

(** The lines the program prints, by the source line of the [print]. *)
Inductive message : Type :=
| TryingPyPDF (pdf_path : string)              (* line 33 *)
| PypdfFailed (pdf_path : string)              (* line 42 *)
| TryingGPT4 (pdf_path : string)               (* line 55 *)
| NoImagesRendered (pdf_path : string)         (* line 64 *)
| VisionOCRFailed (pdf_path : string)          (* line 110 *)
| ErrorParsingLLM                              (* line 167 *)
| RawResponse (body : string)                  (* line 168 *)
| ErrorCommunicating                           (* line 172 *)
| MovedTo (new_file_path : string)             (* line 200 *)
| BlankLine                                    (* line 209 *)
| SkippingEntry (filename : string)            (* line 211 *)
| Processing (filename : string)               (* line 215 *)
| SkippingLLMError (filename : string)         (* line 222 *)
| Shown (ai_response : json)                   (* line 229 *)
| MarkedUnreadable (filename : string)         (* line 235 *)
| ErrorProcessing (filename : string) (e : exn). (* line 242 *)

(** The answer to the next request: an endpoint whose list of answers
    is used up cannot be reached. *)
Definition next_reply (replies : list chat_reply) : chat_reply :=
  match replies with
  | [] => ChatFault
  | r :: _ => r
  end.

(** What [get_llm_metadata] returns for an answer; [JNull] is [None]. *)
Definition reply_value (r : chat_reply) : json :=
  match r with
  | ChatBody _ (Some parsed) => parsed
  | _ => JNull
  end.

Definition INPUT_DIR : string := "D:\Documents\Incoming".
Definition OUTPUT_DIR : string := "D:\Documents\Filed".

Section Program.

Context `{Platform}.

Record World : Type := {
  fs : FS;
  (** the answers the two endpoints will give, call by call; when a
      list is used up the endpoint is unreachable *)
  chat_replies : list chat_reply;
  vision_replies : list vision_reply;
  (** the prompts handed to the chat endpoint, oldest first *)
  chat_requests : list string;
  (** the image URLs handed to the vision endpoint, oldest first *)
  vision_requests : list string;
  (** the [PdfDocument] handles opened and not closed *)
  open_docs : list string;
  (** the lines printed, oldest first *)
  console : list message
}.

Definition set_fs (f : FS) (w : World) : World :=
  {| fs := f; chat_replies := chat_replies w; vision_replies := vision_replies w;
     chat_requests := chat_requests w; vision_requests := vision_requests w;
     open_docs := open_docs w; console := console w |}.

Definition set_open_docs (d : list string) (w : World) : World :=
  {| fs := fs w; chat_replies := chat_replies w; vision_replies := vision_replies w;
     chat_requests := chat_requests w; vision_requests := vision_requests w;
     open_docs := d; console := console w |}.

(** [print] *)
Definition say (m : message) (w : World) : World :=
  {| fs := fs w; chat_replies := chat_replies w; vision_replies := vision_replies w;
     chat_requests := chat_requests w; vision_requests := vision_requests w;
     open_docs := open_docs w; console := console w ++ [m] |}.

(** [client.chat.completions.create(model="gpt-4-turbo", ...)] *)
Definition chat_create (prompt : string) (w : World) : chat_reply * World :=
  let reply := next_reply (chat_replies w) in
  (reply,
   {| fs := fs w; chat_replies := tail (chat_replies w);
      vision_replies := vision_replies w;
      chat_requests :=
        match reply with
        | ChatNoClient => chat_requests w
        | _ => chat_requests w ++ [prompt]
        end;
      vision_requests := vision_requests w; open_docs := open_docs w;
      console := console w |}).

(** [client.chat.completions.create(model="gpt-4o", ...)] *)
Definition vision_create (url : string) (w : World) : vision_reply * World :=
  let reply := match vision_replies w with [] => VisionFault | r :: _ => r end in
  (reply,
   {| fs := fs w; chat_replies := chat_replies w;
      vision_replies := tail (vision_replies w);
      chat_requests := chat_requests w;
      vision_requests :=
        match reply with
        | VisionNoClient => vision_requests w
        | _ => vision_requests w ++ [url]
        end;
      open_docs := open_docs w; console := console w |}).

(** *** [extract_text_with_pypdf] *)
Definition extract_text_with_pypdf (pdf_path : string) (w : World) : string * World :=
  let w := say (TryingPyPDF pdf_path) w in
  match pypdf_pages (fs w) pdf_path with
  | Some pages =>
      (Str.strip
         (Str.join Str.newline
            (map (λ t, match t with Some x => x | None => "" end) pages)), w)
  | None => ("", say (PypdfFailed pdf_path) w)
  end.

(** *** [extract_text_with_gpt4_vision] *)

(** The list comprehension over the pages: the first page that fails
    to render raises. *)
Fixpoint render_all (pages : list (option image)) : option (list image) :=
  match pages with
  | [] => Some []
  | None :: _ => None
  | Some img :: rest => cons img <$> render_all rest
  end.

(** The [paste] loop. *)
Fixpoint paste_all (images : list image) (y_offset : N) : list (image * (N * N)) :=
  match images with
  | [] => []
  | img :: rest => (img, (0%N, y_offset)) :: paste_all rest (y_offset + height img)
  end.

Definition stack (images : list image) : canvas :=
  {| canvas_width := foldr N.max 0%N (map width images);
     canvas_height := foldr N.add 0%N (map height images);
     pasted := paste_all images 0 |}.

Fixpoint remove_first (x : string) (l : list string) : list string :=
  match l with
  | [] => []
  | y :: l' => if bool_decide (x = y) then l' else y :: remove_first x l'
  end.

Definition extract_text_with_gpt4_vision (pdf_path : string) (w : World)
    : string * World :=
  let w := say (TryingGPT4 pdf_path) w in
  match pdfium_pages (fs w) pdf_path with
  | None => ("", say (VisionOCRFailed pdf_path) w)
  | Some pages =>
      let w := set_open_docs (pdf_path :: open_docs w) w in
      match render_all pages with
      | None => ("", say (VisionOCRFailed pdf_path) w)
      | Some images =>
          let w := set_open_docs (remove_first pdf_path (open_docs w)) w in
          match images with
          | [] => ("", say (NoImagesRendered pdf_path) w)
          | _ =>
              match encode_image (stack images) with
              | None => ("", say (VisionOCRFailed pdf_path) w)
              | Some encoded_image =>
                  match vision_create ("data:image/png;base64," +:+ encoded_image) w with
                  | (VisionText content, w) => (Str.strip content, w)
                  | (_, w) => ("", say (VisionOCRFailed pdf_path) w)
                  end
              end
          end
      end
  end.

(** *** [get_unique_filename] *)

(** [os.path.splitext]: the extension starts at the last dot of the
    last path component, unless only dots come before it there. *)
Definition splitext (p : string) : string * string :=
  let sepIndex := Py.rfind path_sep p in
  let sepIndex :=
    match path_altsep with
    | Some a => Z.max sepIndex (Py.rfind a p)
    | None => sepIndex
    end in
  let dotIndex := Py.rfind "." p in
  if (sepIndex <? dotIndex)%Z
     && Str.existsb (λ c, negb (bool_decide (c = "."%char)))
          (Str.take (Z.to_nat (dotIndex - (sepIndex + 1)))
             (Str.drop (Z.to_nat (sepIndex + 1)) p))
  then (Str.take (Z.to_nat dotIndex) p, Str.drop (Z.to_nat dotIndex) p)
  else (p, "").

(** [f"{base_name}-{counter}{ext}"] *)
Definition numbered (base_name ext : string) (counter : N) : string :=
  base_name +:+ "-" +:+ pretty counter +:+ ext.

(** The [while] loop; each unit of [fuel] pays for one test of the
    condition. *)
Fixpoint unique_loop (fuel : nat) (directory : gset string)
    (base_name ext : string) (counter : N) (new_filename : string) : option string :=
  match fuel with
  | O => None
  | S fuel' =>
      if bool_decide (new_filename ∈ directory)
      then unique_loop fuel' directory base_name ext (counter + 1)
             (numbered base_name ext counter)
      else Some new_filename
  end.

Definition get_unique_filename_fuel (fuel : nat) (directory : gset string)
    (filename : string) : option string :=
  let '(base_name, ext) := splitext filename in
  unique_loop fuel directory base_name ext 1 filename.

(** [directory] is the set of names that exist in the target
    directory.  One test more than it has names is always enough
    ([unique_loop_enough] below). *)
Definition get_unique_filename (directory : gset string) (filename : string) : string :=
  default filename (get_unique_filename_fuel (S (size directory)) directory filename).

(** *** [get_llm_metadata]; [None] is [JNull] *)
Definition get_llm_metadata (text : string) (w : World) : json * World :=
  let prompt := Str.replace "{PDF_TEXT}" (Str.take 3000 text) DOCUMENT_PROMPT in
  match chat_create prompt w with
  | (ChatBody _ (Some parsed), w) => (parsed, w)
  | (ChatBody body None, w) => (JNull, say (RawResponse body) (say ErrorParsingLLM w))
  | (_, w) => (JNull, say ErrorCommunicating w)
  end.

(** *** [is_unreadable] *)
Definition is_unreadable (ai_response : json) : result bool :=
  match ai_response with
  | JObject fields =>
      match default (JString "") (Py.lookup "category" fields) with
      | JString category => Ok (bool_decide (Str.lower category = "unreadable"))
      | _ => Raise AttributeError
      end
  | _ => Raise AttributeError
  end.

(** *** [move_pdf] *)

(** [date[:4] if date and date != "unknown" else "Unkn"] *)
Definition year_of (date : json) : result json :=
  if Py.truthy date && negb (Py.eq_str date "unknown")
  then Py.slice_to 4 date
  else Ok (JString "Unkn").

(** [os.path.join(OUTPUT_DIR, year, f"{year} - {category}")] *)
Definition year_dir_of (year category : json) : result string :=
  match year with
  | JString y => Ok (path_join OUTPUT_DIR [y; Py.str year +:+ " - " +:+ Py.str category])
  | _ => Raise TypeError
  end.

(** Lines 183 to 191: the destination directory. *)
Definition destination_dir (ai_response : json) : result string :=
  match Py.subscript ai_response "category" with
  | Raise e => Raise e
  | Ok category =>
  match Py.subscript ai_response "date" with
  | Raise e => Raise e
  | Ok date =>
  match Py.subscript ai_response "filename" with
  | Raise e => Raise e
  | Ok _ =>
  match year_of date with
  | Raise e => Raise e
  | Ok year => year_dir_of year category
  end end end end.

(** The answer is the path the file was moved to. *)
Definition move_pdf (file_path : string) (ai_response : json) (w : World)
    : result string * World :=
  match destination_dir ai_response, Py.subscript ai_response "filename" with
  | Raise e, _ | _, Raise e => (Raise e, w)
  | Ok year_dir, Ok new_filename =>
      match makedirs year_dir (fs w) with
      | (false, f) => (Raise OSError, set_fs f w)
      | (true, f) =>
          let w := set_fs f w in
          match new_filename with
          | JString new_filename =>
              let unique_filename :=
                get_unique_filename (dir_entries (fs w) year_dir) new_filename in
              let new_file_path := path_join year_dir [unique_filename] in
              match shutil_move file_path new_file_path (fs w) with
              | (true, f) => (Ok new_file_path, say (MovedTo new_file_path) (set_fs f w))
              | (false, f) => (Raise OSError, set_fs f w)
              end
          | _ => (Raise TypeError, w)
          end
      end
  end.

(** *** [process_pdf] *)

(** The way [process_pdf] left: the two early [return]s, the end of
    the [try] block, or the [except] branch. *)
Inductive outcome : Type :=
| SkippedLLMError
| SkippedUnreadable
| Moved (new_file_path : string)
| Caught (e : exn).

(** The test of lines 225 to 228. *)
Definition is_ambiguous (ai_response : json) : bool :=
  Str.contains "unknown" (Str.lower (Py.str ai_response))
  || Str.contains "unidentified" (Str.lower (Py.str ai_response)).

Definition process_pdf (filename : string) (w : World) : outcome * World :=
  let w := say (Processing filename) w in
  let '(text, w) := extract_text_with_pypdf filename w in
  let '(ai_response, w) := get_llm_metadata text w in
  if negb (Py.truthy ai_response)
  then (SkippedLLMError, say (SkippingLLMError filename) w)
  else
    let '(ai_response, w) :=
      if is_ambiguous ai_response
      then
        let w := say (Shown ai_response) w in
        let '(text, w) := extract_text_with_gpt4_vision filename w in
        get_llm_metadata text w
      else (ai_response, w) in
    match is_unreadable ai_response with
    | Raise e => (Caught e, say (ErrorProcessing filename e) w)
    | Ok true => (SkippedUnreadable, say (MarkedUnreadable filename) w)
    | Ok false =>
        match move_pdf filename ai_response w with
        | (Ok new_file_path, w) => (Moved new_file_path, w)
        | (Raise e, w) => (Caught e, say (ErrorProcessing filename e) w)
        end
    end.

(** *** [process_pdfs] *)

(** The [for] loop; the answer lists the documents handed to
    [process_pdf] with the way each one ended. *)
Fixpoint process_listing (names : list string) (w : World)
    : list (string * outcome) * World :=
  match names with
  | [] => ([], w)
  | filename :: rest =>
      if Py.endswith ".pdf" (Str.lower filename)
      then
        let file_path := path_join INPUT_DIR [filename] in
        let '(o, w) := process_pdf file_path w in
        let '(log, w) := process_listing rest (say BlankLine w) in
        ((file_path, o) :: log, w)
      else process_listing rest (say (SkippingEntry filename) w)
  end.

Definition process_pdfs (w : World) : result (list (string * outcome)) * World :=
  match listdir (fs w) INPUT_DIR with
  | Some names => let '(log, w) := process_listing names w in (Ok log, w)
  | None => (Raise OSError, w)
  end.

(** Two readings of the console: the documents the image extractor
    was started on, and the paths files were moved to. *)
Definition ocr_attempts (w : World) : list string :=
  omap (λ m, match m with TryingGPT4 p => Some p | _ => None end) (console w).

Definition filed (w : World) : list string :=
  omap (λ m, match m with MovedTo p => Some p | _ => None end) (console w).

Definition set_chat_replies (replies : list chat_reply) (w : World) : World :=
  {| fs := fs w; chat_replies := replies; vision_replies := vision_replies w;
     chat_requests := chat_requests w; vision_requests := vision_requests w;
     open_docs := open_docs w; console := console w |}.

(** The end of [process_pdf], from the unreadable test on, on its own
    ([process_pdf_steps] below puts the pieces together). *)
Definition conclude (filename : string) (ai_response : json) (w : World)
    : outcome * World :=
  match is_unreadable ai_response with
  | Raise e => (Caught e, say (ErrorProcessing filename e) w)
  | Ok true => (SkippedUnreadable, say (MarkedUnreadable filename) w)
  | Ok false =>
      match move_pdf filename ai_response w with
      | (Ok new_file_path, w) => (Moved new_file_path, w)
      | (Raise e, w) => (Caught e, say (ErrorProcessing filename e) w)
      end
  end.

(** What a step leaves alone: everything but the chat endpoint and
    the lines of the console that are neither about the image
    extractor nor about a move. *)
Definition quiet (w w' : World) : Prop :=
  fs w' = fs w ∧ open_docs w' = open_docs w
  ∧ vision_replies w' = vision_replies w
  ∧ vision_requests w' = vision_requests w
  ∧ ocr_attempts w' = ocr_attempts w ∧ filed w' = filed w.

(** The states of the specification's per-document state machine in
    which a document can end. *)
Inductive final_state : Type := Filed | Unreadable | Failed.

Definition final_state_of (o : outcome) : final_state :=
  match o with
  | Moved _ => Filed
  | SkippedUnreadable => Unreadable
  | SkippedLLMError | Caught _ => Failed
  end.

End Program.

(** ** A platform to run the program on

    An in-memory file system: a map from the paths of the documents to
    what the two PDF libraries find in them.  Directories exist as soon
    as they are named. *)

Module Demo.

Record doc : Type := {
  native_text : option (list (option string));
  renders : option (list (option image))
}.

Definition join2 (d n : string) : string := d +:+ "\" +:+ n.

Definition entry_of (d p : string) : option string :=
  if Str.startswith (d +:+ "\") p
  then Some (Str.drop (String.length d + 1) p)
  else None.

Definition entries (f : gmap string doc) (d : string) : gset string :=
  set_omap (entry_of d) (dom f).

Definition platform : Platform := {|
  FS := gmap string doc;
  path_join d parts := foldl join2 d parts;
  path_sep := "\";
  path_altsep := Some "/"%char;
  dir_entries := entries;
  makedirs d f := (true, f);
  shutil_move src dst f :=
    match f !! src with
    | Some x => (true, <[dst:=x]> (delete src f))
    | None => (false, f)
    end;
  listdir f d := Some (elements (entries f d));
  pypdf_pages f p := f !! p ≫= native_text;
  pdfium_pages f p := f !! p ≫= renders;
  encode_image c :=
    Some ("PNG" +:+ pretty (canvas_width c) +:+ "x" +:+ pretty (canvas_height c));
  DOCUMENT_PROMPT := "Classify this document. Answer in JSON. {PDF_TEXT}"
|}.

Definition page : image := {| width := 1240; height := 1754; pixels := [] |}.

(** A document with a text layer. *)
Definition text_pdf (t : string) : doc :=
  {| native_text := Some [Some t]; renders := Some [Some page] |}.

(** A scan of two pages; the second one cannot be rendered. *)
Definition torn_scan : doc :=
  {| native_text := Some [None; None]; renders := Some [Some page; None] |}.

Definition world (f : gmap string doc) (replies : list chat_reply)
    (scans : list vision_reply) : @World platform :=
  {| fs := f : @FS platform; chat_replies := replies; vision_replies := scans;
     chat_requests := []; vision_requests := []; open_docs := [];
     console := [] |}.

Definition invoice : json :=
  JObject [("category", JString "Invoice"); ("date", JString "2023-04-01");
           ("filename", JString "invoice.pdf")].

Definition undated : json :=
  JObject [("category", JString "Letter"); ("date", JString "unknown");
           ("filename", JString "letter.pdf")].

Definition statement_path : string := "D:\Documents\Incoming\statement.pdf".

(** One document that names a social security number, and a chat
    endpoint that answers. *)
Definition statement_world : @World platform :=
  world {[ statement_path := text_pdf "Account holder SSN 123-45-6789" ]}
    [ChatBody "{...}" (Some invoice)] [].

Definition scan_path : string := "D:\Documents\Incoming\scan.pdf".

Definition scan_world : @World platform :=
  world {[ scan_path := torn_scan ]} [] [].

Definition set_replies (replies : list chat_reply) (w : @World platform)
    : @World platform :=
  @set_chat_replies platform replies w.

End Demo.

(** The letters [a] to [z]. *)
Definition is_letter (c : ascii) : bool := Char.between 97 122 c.

(** A text of [n] decimal digits. *)
Definition digits (n : nat) (s : string) : bool :=
  (String.length s =? n) && Str.forallb Char.py_isdecimal s.

(** ** More platforms and worlds to run the program on *)

Module Fixtures.

(** [Demo.platform] without the environment variable [DOCUMENT_PROMPT]:
    [os.getenv] falls back to the empty text. *)
Definition bare_platform : Platform := {|
  FS := @FS Demo.platform;
  path_join := @path_join Demo.platform;
  path_sep := @path_sep Demo.platform;
  path_altsep := @path_altsep Demo.platform;
  dir_entries := @dir_entries Demo.platform;
  makedirs := @makedirs Demo.platform;
  shutil_move := @shutil_move Demo.platform;
  listdir := @listdir Demo.platform;
  pypdf_pages := @pypdf_pages Demo.platform;
  pdfium_pages := @pdfium_pages Demo.platform;
  encode_image := @encode_image Demo.platform;
  DOCUMENT_PROMPT := ""
|}.

Definition bare_world : @World bare_platform :=
  {| fs := ({[ Demo.statement_path := Demo.text_pdf "Account holder SSN 123-45-6789" ]}
            : gmap string Demo.doc) : @FS bare_platform;
     chat_replies := [ChatBody "{...}" (Some Demo.invoice)];
     vision_replies := []; chat_requests := []; vision_requests := [];
     open_docs := []; console := [] |}.

(** A document without pages. *)
Definition empty_pdf : Demo.doc :=
  {| Demo.native_text := Some []; Demo.renders := Some [] |}.

(** Answers that lack a key, or have one of the wrong kind. *)
Definition no_filename : json :=
  JObject [("category", JString "Invoice"); ("date", JString "2023-04-01")].

Definition numeric_date : json :=
  JObject [("category", JString "Invoice"); ("date", JInt 2023);
           ("filename", JString "invoice.pdf")].

Definition numeric_filename : json :=
  JObject [("category", JString "Invoice"); ("date", JString "2023-04-01");
           ("filename", JInt 7)].

Definition vendor_unknown : json :=
  JObject [("category", JString "Invoice"); ("date", JString "2023-04-01");
           ("filename", JString "invoice.pdf"); ("vendor", JString "UNKNOWN Co")].

End Fixtures.

(** * Facts *)

(** ** Strings *)

Module StrFacts.

Lemma app_nil_r s : s +:+ "" = s.
Proof.
  induction s as [|c s IH]; [done|].
  unfold String.app in *. simpl. by rewrite IH.
Qed.

Lemma app_assoc s1 s2 s3 : (s1 +:+ s2) +:+ s3 = s1 +:+ (s2 +:+ s3).
Proof.
  induction s1 as [|c s1 IH]; [done|].
  unfold String.app in *. simpl. by rewrite IH.
Qed.

Lemma app_cons c s t : String c s +:+ t = String c (s +:+ t).
Proof. done. Qed.

Lemma app_length s t : String.length (s +:+ t) = String.length s + String.length t.
Proof.
  induction s as [|c s IH]; [done|].
  rewrite app_cons. simpl. by rewrite IH.
Qed.

Lemma take_drop n s : Str.take n s +:+ Str.drop n s = s.
Proof.
  revert s. induction n as [|n IH]; intros [|c s]; try done.
  simpl. rewrite app_cons. by rewrite IH.
Qed.

Lemma take_all n s : String.length s ≤ n → Str.take n s = s.
Proof.
  revert s. induction n as [|n IH]; intros [|c s] Hn; simpl in *; try done; try lia.
  rewrite IH; [done|lia].
Qed.

Lemma nth_0 s : Str.nth 0 s = Str.head s.
Proof. by destruct s. Qed.

Lemma startswith_spec p s : Str.startswith p s = true ↔ ∃ t, s = p +:+ t.
Proof.
  revert s. induction p as [|a p IH]; intros s.
  - split; [intros _; by exists s|done].
  - destruct s as [|b s]; simpl.
    + split; [done|]. intros [t Ht]. discriminate Ht.
    + rewrite andb_true_iff, bool_decide_eq_true, IH. split.
      * intros [-> [t ->]]. by exists t.
      * intros [t Ht]. rewrite app_cons in Ht. injection Ht as -> ->. eauto.
Qed.

(** [Str.contains] is Python's [in]: the text occurs somewhere. *)
Lemma contains_spec p s :
  Str.contains p s = true ↔ ∃ pre post, s = pre +:+ p +:+ post.
Proof.
  induction s as [|c s IH].
  - simpl. rewrite orb_false_r, startswith_spec. split.
    + intros [t Ht]. by exists "", t.
    + intros [pre [post Hs]]. destruct pre; [by exists post|discriminate Hs].
  - simpl. rewrite orb_true_iff, startswith_spec, IH. split.
    + intros [[t Ht]|[pre [post Hs]]].
      * by exists "", t.
      * exists (String c pre), post. by rewrite Hs.
    + intros [[|a pre] [post Hs]].
      * left. by exists post.
      * right. rewrite app_cons in Hs. injection Hs as -> ->. by exists pre, post.
Qed.

End StrFacts.

(** ** Characters *)

Module CharFacts.

Lemma isdecimal_isword c : Char.py_isdecimal c = true → Char.py_isword c = true.
Proof. destruct c as [[] [] [] [] [] [] [] []]; vm_compute; congruence. Qed.

Lemma not_word_not_digit o : Re.word_at o = false → Re.digit_at o = false.
Proof.
  destruct o as [c|]; [|done]. simpl. intros Hw.
  destruct (Char.py_isdecimal c) eqn:Hd; [|done].
  apply isdecimal_isword in Hd. congruence.
Qed.

End CharFacts.

(** ** What [re.sub] leaves behind *)

Module ReFacts.

Import Re.

Section Shaped.

(** [t0] opens every replacement text and is no digit. *)
Variable t0 : ascii.
Hypothesis t0_no_digit : Char.py_isdecimal t0 = false.

(** A shaped pattern needs a digit to start. *)
Lemma shape_head p prev c s :
  shape t0 p = true → Char.py_isdecimal c = false →
  match_here p prev (String c s) = None.
Proof.
  destruct p as [|[| |] [|[| |] p]]; try done.
  intros _ Hc. simpl. rewrite Hc. by destruct (xorb _ _).
Qed.

Lemma shape_empty p prev : shape t0 p = true → match_here p prev "" = None.
Proof.
  destruct p as [|[| |] [|[| |] p]]; try done.
  intros _. simpl. by destruct (xorb _ _).
Qed.

Lemma shape_nonempty p prev s : shape t0 p = true → match_here p prev s ≠ Some 0.
Proof.
  destruct p as [|[| |] [|[| |] p]]; try done.
  intros _. simpl. destruct (xorb _ _); [|done].
  destruct s as [|c s]; [done|].
  destruct (Char.py_isdecimal c); [|done].
  by destruct (match_here p (Some c) s).
Qed.

(** After a match comes no word character. *)
Lemma tail_end p : ∀ aft prev s n,
  tail_ok t0 aft p = true → (aft = true → word_at prev = true) →
  match_here p prev s = Some n → word_at (Str.nth n s) = false.
Proof.
  induction p as [|[| |a] p IH]; intros aft prev s n Hok Haft Hm; simpl in *.
  - done.
  - apply andb_true_iff in Hok as [-> Hp]. destruct p; [|done].
    rewrite Haft in Hm by done.
    destruct (word_at (Str.head s)) eqn:Hw; simpl in Hm; [done|].
    injection Hm as <-. by rewrite StrFacts.nth_0.
  - destruct s as [|c s]; [done|].
    destruct (Char.py_isdecimal c) eqn:Hc; [|done].
    destruct (match_here p (Some c) s) as [k|] eqn:Hk; [|done].
    injection Hm as <-. simpl.
    apply (IH true (Some c)); auto.
    intros _. by apply CharFacts.isdecimal_isword.
  - apply andb_true_iff in Hok as [_ Hok].
    destruct s as [|c s]; [done|].
    destruct (bool_decide (a = c)); [|done].
    destruct (match_here p (Some c) s) as [k|] eqn:Hk; [|done].
    injection Hm as <-. simpl.
    apply (IH false (Some c)); auto. done.
Qed.

Lemma shape_end p prev s n :
  shape t0 p = true → match_here p prev s = Some n →
  word_at (Str.nth n s) = false.
Proof.
  destruct p as [|[| |] [|[| |] p]]; try done.
  simpl. intros Hok. destruct (xorb _ _); [|done].
  destruct s as [|c s]; [done|].
  destruct (Char.py_isdecimal c) eqn:Hc; [|done].
  destruct (match_here p (Some c) s) as [k|] eqn:Hk; [|done].
  intros [= <-]. simpl.
  apply (tail_end p true (Some c)); auto.
  intros _. by apply CharFacts.isdecimal_isword.
Qed.

(** A replacement text holds no digit, so no shaped pattern starts
    in it. *)
Lemma search_app_no_digit q r : ∀ prev rest,
  shape t0 q = true → no_digit r = true →
  search q prev (r +:+ rest) = search q (Str.last prev r) rest.
Proof.
  induction r as [|a r IH]; intros prev rest Hq Hr; [done|].
  apply andb_true_iff in Hr as [Ha Hr]. apply negb_true_iff in Ha.
  rewrite StrFacts.app_cons. simpl. unfold matches.
  rewrite (shape_head q prev a) by done. simpl. by apply IH.
Qed.

(** The pattern [p] being replaced and its replacement text. *)
Variable p : pattern.
Variable repl : string.
Hypothesis p_shape : shape t0 p = true.
Hypothesis repl_head : Str.head repl = Some t0.
Hypothesis repl_no_digit : no_digit repl = true.

(** Where [p] does not match, [sub_go] copies the character. *)
Lemma sub_go_copy prev c s :
  match_here p prev (String c s) = None →
  sub_go p repl prev 0 (String c s) = String c (sub_go p repl (Some c) 0 s).
Proof. intros Hm. simpl in *. by rewrite Hm. Qed.

Lemma sub_go_empty prev : sub_go p repl prev 0 "" = "".
Proof. simpl. by rewrite shape_empty. Qed.

(** Where [p] matches, the output starts with [t0]. *)
Lemma sub_go_head prev s n :
  match_here p prev s = Some n →
  Str.head (sub_go p repl prev 0 s) = Some t0.
Proof.
  intros Hm. destruct s as [|c s].
  - by rewrite shape_empty in Hm.
  - simpl in *. rewrite Hm. destruct repl; [done|].
    destruct n; by rewrite StrFacts.app_cons.
Qed.

(** If a tail of a shaped pattern matches the output of [sub_go], it
    matches the input at the same place. *)
Lemma tail_transfer q : ∀ aft prev s n,
  tail_ok t0 aft q = true → (aft = true → word_at prev = true) →
  match_here q prev (sub_go p repl prev 0 s) = Some n →
  match_here q prev s = Some n.
Proof.
  induction q as [|[| |a] q IH]; intros aft prev s n Hok Haft Hm; [done|..].
  - (* the closing \b *)
    simpl in Hok. apply andb_true_iff in Hok as [-> Hq]. destruct q; [|done].
    simpl in *. rewrite Haft in * by done.
    destruct (match_here p prev s) as [k|] eqn:Hp.
    + (* [p] would have to start right after a word character *)
      exfalso. destruct p as [|[| |] [|[| |] p']]; try done.
      simpl in Hp. rewrite Haft in Hp by done.
      destruct s as [|c s]; [done|]. simpl in Hp.
      destruct (Char.py_isword c) eqn:Hw; [done|]. simpl in Hp.
      destruct (Char.py_isdecimal c) eqn:Hd; [|done].
      apply CharFacts.isdecimal_isword in Hd. congruence.
    + destruct s as [|c s]; [by rewrite sub_go_empty in Hm|].
      by rewrite sub_go_copy in Hm.
  - (* a digit *)
    destruct s as [|c s]; [by rewrite sub_go_empty in Hm|].
    destruct (match_here p prev (String c s)) as [k|] eqn:Hp.
    + exfalso. apply sub_go_head in Hp.
      destruct (sub_go p repl prev 0 (String c s)) as [|d out]; [done|].
      injection Hp as ->. simpl in Hm. by rewrite t0_no_digit in Hm.
    + rewrite sub_go_copy in Hm by done. simpl in *.
      destruct (Char.py_isdecimal c) eqn:Hc; [|done].
      destruct (match_here q (Some c) (sub_go p repl (Some c) 0 s)) as [k|] eqn:Hk;
        [|done].
      rewrite (IH true (Some c) s k); auto.
      intros _. by apply CharFacts.isdecimal_isword.
  - (* a literal *)
    simpl in Hok. apply andb_true_iff in Hok as [Ha Hok].
    apply negb_true_iff, bool_decide_eq_false in Ha.
    destruct s as [|c s]; [by rewrite sub_go_empty in Hm|].
    destruct (match_here p prev (String c s)) as [k|] eqn:Hp.
    + exfalso. apply sub_go_head in Hp.
      destruct (sub_go p repl prev 0 (String c s)) as [|d out]; [done|].
      injection Hp as ->. simpl in Hm.
      by rewrite bool_decide_eq_false_2 in Hm.
    + rewrite sub_go_copy in Hm by done. simpl in *.
      destruct (bool_decide (a = c)); [|done].
      destruct (match_here q (Some c) (sub_go p repl (Some c) 0 s)) as [k|] eqn:Hk;
        [|done].
      rewrite (IH false (Some c) s k); auto. done.
Qed.

(** The same for a whole shaped pattern, where [p] itself does not
    match. *)
Lemma shape_transfer q prev c s n :
  shape t0 q = true → match_here p prev (String c s) = None →
  match_here q prev (sub_go p repl prev 0 (String c s)) = Some n →
  match_here q prev (String c s) = Some n.
Proof.
  intros Hq Hp Hm.
  destruct q as [|[| |] [|[| |] q]]; try done.
  assert (Hx : match_here (Digit :: q) prev (String c s) = Some n).
  { apply (tail_transfer (Digit :: q) false); [done..|].
    rewrite sub_go_copy in Hm |- * by done.
    change (match_here (WordB :: Digit :: q) prev ?x)
      with (if xorb (word_at prev) (word_at (Str.head x))
            then match_here (Digit :: q) prev x else None) in Hm.
    by destruct (xorb _ _). }
  change (match_here (WordB :: Digit :: q) prev ?x)
    with (if xorb (word_at prev) (word_at (Str.head x))
          then match_here (Digit :: q) prev x else None) in Hm |- *.
  rewrite sub_go_copy in Hm by done. simpl Str.head in *.
  by destruct (xorb _ _).
Qed.

(** [sub_go] leaves no match of [p], and creates no match of another
    shaped pattern.  [prev'] is the character before the output;
    it is the one before the input, unless the input continues with
    no digit. *)
Lemma sub_go_clean q s : ∀ prev prev' skip,
  shape t0 q = true →
  q = p ∨ search q prev s = false →
  match skip with
  | O => prev' = prev ∨ digit_at (Str.head s) = false
  | S _ => word_at (Str.nth skip s) = false
  end →
  search q prev' (sub_go p repl prev skip s) = false.
Proof.
  induction s as [|c s IH]; intros prev prev' skip Hq Hin Hskip.
  - assert (sub_go p repl prev skip "" = "") as ->.
    { simpl. rewrite shape_empty by done. by destruct skip. }
    simpl. unfold matches. by rewrite (shape_empty q).
  - assert (Hin' : q = p ∨ search q (Some c) s = false).
    { destruct Hin as [->|Hs]; [by left|right].
      simpl in Hs. by apply orb_false_iff in Hs as [_ ?]. }
    destruct skip as [|k].
    + destruct (match_here p prev (String c s)) as [[|k]|] eqn:Hp.
      * by apply shape_nonempty in Hp.
      * simpl. rewrite Hp. rewrite search_app_no_digit by done.
        apply IH; [done..|].
        apply shape_end in Hp; [|done]. simpl in Hp.
        destruct k; [|done]. right.
        rewrite StrFacts.nth_0 in Hp. by apply CharFacts.not_word_not_digit.
      * rewrite sub_go_copy by done. simpl. apply orb_false_iff. split.
        -- unfold matches.
           destruct (match_here q prev' _) as [n|] eqn:Hm; [exfalso|done].
           rewrite <- (sub_go_copy prev) in Hm by done.
           assert (prev' = prev) as ->.
           { destruct Hskip as [?|Hd]; [done|exfalso]. simpl in Hd.
             rewrite sub_go_copy in Hm by done.
             by rewrite (shape_head q) in Hm. }
           apply shape_transfer in Hm; [|done..].
           destruct Hin as [->|Hs]; [congruence|].
           simpl in Hs. apply orb_false_iff in Hs as [Hs _].
           unfold matches in Hs. by rewrite Hm in Hs.
        -- apply IH; auto.
    + simpl. apply IH; [done..|].
      simpl in Hskip. destruct k; [|done]. right.
      rewrite StrFacts.nth_0 in Hskip. by apply CharFacts.not_word_not_digit.
Qed.

(** [re.sub] removes every match of its pattern. *)
Lemma sub_removes s : search p None (sub p repl s) = false.
Proof. apply sub_go_clean; auto. Qed.

(** [re.sub] brings in no match of another shaped pattern. *)
Lemma sub_preserves q s :
  shape t0 q = true → search q None s = false →
  search q None (sub p repl s) = false.
Proof. intros. apply sub_go_clean; auto. Qed.

(** Without a match [re.sub] changes nothing. *)
Lemma sub_fixed s : ∀ prev, search p prev s = false → sub_go p repl prev 0 s = s.
Proof.
  induction s as [|c s IH]; intros prev Hs; [apply sub_go_empty|].
  simpl in Hs. apply orb_false_iff in Hs as [Hm Hs]. unfold matches in Hm.
  destruct (match_here p prev (String c s)) eqn:Hp; [done|].
  rewrite sub_go_copy by done. by rewrite IH.
Qed.

End Shaped.

End ReFacts.

(** ** The redactor *)

Module RedactFacts.

Lemma bracket_no_digit : Char.py_isdecimal bracket = false.
Proof. reflexivity. Qed.

Lemma SSN_shape : Re.shape bracket SSN_RE = true.
Proof. reflexivity. Qed.

Lemma CARD_shape : Re.shape bracket CARD_RE = true.
Proof. reflexivity. Qed.

Lemma ACCOUNT_shape : Re.shape bracket ACCOUNT_RE = true.
Proof. reflexivity. Qed.

#[local] Hint Resolve bracket_no_digit SSN_shape CARD_shape ACCOUNT_shape : core.

(** The redacted text holds no match of any of the three patterns. *)
Lemma redact_clean s :
  Re.search SSN_RE None (redact_sensitive_info s) = false
  ∧ Re.search CARD_RE None (redact_sensitive_info s) = false
  ∧ Re.search ACCOUNT_RE None (redact_sensitive_info s) = false.
Proof.
  unfold redact_sensitive_info.
  pose proof (ReFacts.sub_removes bracket bracket_no_digit SSN_RE
                "[REDACTED SSN]" SSN_shape eq_refl eq_refl s) as H1.
  set (t1 := Re.sub SSN_RE _ s) in *.
  pose proof (ReFacts.sub_removes bracket bracket_no_digit CARD_RE
                "[REDACTED CARD]" CARD_shape eq_refl eq_refl t1) as H2.
  pose proof (ReFacts.sub_preserves bracket bracket_no_digit CARD_RE
                "[REDACTED CARD]" CARD_shape eq_refl eq_refl SSN_RE t1 SSN_shape H1)
    as H1'.
  set (t2 := Re.sub CARD_RE _ t1) in *.
  repeat split.
  - by apply ReFacts.sub_preserves with (t0 := bracket).
  - by apply ReFacts.sub_preserves with (t0 := bracket).
  - by apply ReFacts.sub_removes with (t0 := bracket).
Qed.

(** Text without a match goes through the redactor unchanged. *)
Lemma redact_fixed s :
  Re.search SSN_RE None s = false → Re.search CARD_RE None s = false →
  Re.search ACCOUNT_RE None s = false →
  redact_sensitive_info s = s.
Proof.
  intros H1 H2 H3. unfold redact_sensitive_info, Re.sub.
  rewrite (ReFacts.sub_fixed bracket SSN_RE _ SSN_shape s None H1).
  rewrite (ReFacts.sub_fixed bracket CARD_RE _ CARD_shape s None H2).
  by rewrite (ReFacts.sub_fixed bracket ACCOUNT_RE _ ACCOUNT_shape s None H3).
Qed.

(** The three examples of the specification, and a text without a
    match. *)
Example redact_ssn : redact_sensitive_info "123-45-6789" = "[REDACTED SSN]".
Proof. reflexivity. Qed.

Example redact_card :
  redact_sensitive_info "4111-1111-1111-1111" = "[REDACTED CARD]".
Proof. reflexivity. Qed.

Example redact_account : redact_sensitive_info "123456789" = "[REDACTED ACCOUNT]".
Proof. reflexivity. Qed.

Example redact_other :
  redact_sensitive_info "Invoice 2023-04-01, ref A1234567890"
  = "Invoice 2023-04-01, ref A1234567890".
Proof. reflexivity. Qed.

End RedactFacts.

(** ** [get_unique_filename] *)

Module UniqueFacts.

Lemma app_inj_r e : ∀ s1 s2, s1 +:+ e = s2 +:+ e → s1 = s2.
Proof.
  assert (Hlen : ∀ c s, e ≠ String c (s +:+ e)).
  { intros c s Heq. apply (f_equal String.length) in Heq.
    simpl in Heq. rewrite StrFacts.app_length in Heq. lia. }
  induction s1 as [|a s1 IH]; intros [|b s2] Heq; simpl in *.
  - done.
  - by apply Hlen in Heq.
  - symmetry in Heq. by apply Hlen in Heq.
  - rewrite !StrFacts.app_cons in Heq. injection Heq as -> Heq.
    f_equal. by apply IH.
Qed.

Section WithPlatform.

Context `{Platform}.

Lemma splitext_app p : fst (splitext p) +:+ snd (splitext p) = p.
Proof.
  unfold splitext. destruct (_ && _); simpl.
  - apply StrFacts.take_drop.
  - apply StrFacts.app_nil_r.
Qed.

Lemma numbered_inj b e : Inj (=) (=) (numbered b e).
Proof.
  intros n m Heq. unfold numbered in Heq.
  apply (inj (String.app b)) in Heq.
  apply (inj (String.app "-")) in Heq.
  apply app_inj_r in Heq. by apply (inj pretty).
Qed.

Lemma numbered_fresh b e n : numbered b e n ≠ b +:+ e.
Proof.
  unfold numbered. intros Heq. apply (inj (String.app b)) in Heq.
  apply (f_equal String.length) in Heq.
  rewrite !StrFacts.app_length in Heq. simpl in Heq. lia.
Qed.

(** What the loop returns, when it returns. *)
Lemma unique_loop_spec dir b e : ∀ fuel n new r,
  unique_loop fuel dir b e n new = Some r →
  (r ∉ dir)
  ∧ (new ∉ dir → r = new)
  ∧ (new ∈ dir →
     ∃ k, (n ≤ k)%N ∧ r = numbered b e k
          ∧ ∀ m, (n ≤ m < k)%N → numbered b e m ∈ dir).
Proof.
  induction fuel as [|fuel IH]; intros n new r Hr; [done|].
  simpl in Hr. case_bool_decide as Hnew.
  - apply IH in Hr as (Hfresh & Hsame & Hnext).
    split; [done|]. split; [done|]. intros _.
    destruct (decide (numbered b e n ∈ dir)) as [Hin|Hout].
    + destruct (Hnext Hin) as (k & Hk & -> & Hall).
      exists k. split; [lia|]. split; [done|].
      intros m Hm. destruct (decide (m = n)) as [->|?]; [done|].
      apply Hall. lia.
    + exists n. split; [lia|]. split; [by apply Hsame|]. intros m Hm. lia.
  - injection Hr as <-. split; [done|]. split; [done|]. done.
Qed.

(** When the fuel runs out, every name tried exists. *)
Lemma unique_loop_none dir b e : ∀ fuel n new,
  unique_loop (S fuel) dir b e n new = None →
  new ∈ dir ∧ ∀ i, i < fuel → numbered b e (n + N.of_nat i) ∈ dir.
Proof.
  induction fuel as [|fuel IH]; intros n new Hr.
  - simpl in Hr. case_bool_decide; [|done]. split; [done|]. intros i Hi. lia.
  - cbn [unique_loop] in Hr. case_bool_decide as Hnew; [|done].
    apply IH in Hr as [Hfirst Hrest]. split; [done|].
    intros [|i] Hi.
    + by rewrite N.add_0_r.
    + replace (n + N.of_nat (S i))%N with (n + 1 + N.of_nat i)%N by lia.
      apply Hrest. lia.
Qed.

(** More fuel does not change the answer. *)
Lemma unique_loop_mono dir b e : ∀ fuel fuel' n new r,
  unique_loop fuel dir b e n new = Some r → fuel ≤ fuel' →
  unique_loop fuel' dir b e n new = Some r.
Proof.
  induction fuel as [|fuel IH]; intros fuel' n new r Hr Hle; [done|].
  destruct fuel' as [|fuel']; [lia|].
  simpl in *. case_bool_decide; [|done].
  apply (IH fuel'); [done|lia].
Qed.

(** The names the loop tries are all different, so a directory
    cannot hold more of them than it has names. *)
Lemma unique_loop_enough (dir : gset string) filename :
  is_Some (unique_loop (S (size dir)) dir (fst (splitext filename))
             (snd (splitext filename)) 1 filename).
Proof.
  destruct (unique_loop _ _ _ _ _ _) as [r|] eqn:Hr; [by eexists|exfalso].
  apply unique_loop_none in Hr as [Hfirst Hrest].
  set (b := fst (splitext filename)) in *. set (e := snd (splitext filename)) in *.
  set (tried := filename :: ((λ i, numbered b e (1 + N.of_nat i)) <$> seq 0 (size dir))).
  assert (Hdup : NoDup tried).
  { apply NoDup_cons. split.
    - intros Hin. apply list_elem_of_fmap in Hin as (i & Heq & _).
      symmetry in Heq. apply numbered_fresh with (b := b) (e := e) (n := (1 + N.of_nat i)%N).
      rewrite Heq. symmetry. apply splitext_app.
    - apply NoDup_fmap_2_strong; [|apply NoDup_seq].
      intros i j _ _ Heq. apply numbered_inj in Heq. lia. }
  assert (Hsub : (list_to_set tried : gset string) ⊆ dir).
  { intros x Hx. apply elem_of_list_to_set in Hx.
    apply elem_of_cons in Hx as [->|Hx]; [done|].
    apply list_elem_of_fmap in Hx as (i & -> & Hi).
    apply elem_of_seq in Hi. apply Hrest. lia. }
  apply subseteq_size in Hsub. rewrite size_list_to_set in Hsub by done.
  unfold tried in Hsub. simpl in Hsub.
  rewrite length_fmap, length_seq in Hsub. lia.
Qed.

End WithPlatform.

End UniqueFacts.

(** ** [is_unreadable] and [move_pdf] *)

Module FilingFacts.

Section WithPlatform.

Context `{Platform}.

(** The destination for a date that is a text. *)
Lemma destination_dir_string_date fields category d fname :
  Py.lookup "category" fields = Some category →
  Py.lookup "date" fields = Some (JString d) →
  Py.lookup "filename" fields = Some fname →
  destination_dir (JObject fields)
  = let year := if bool_decide (d = "") || bool_decide (d = "unknown")
                then "Unkn" else Str.take 4 d in
    Ok (path_join OUTPUT_DIR [year; year +:+ " - " +:+ Py.str category]).
Proof.
  intros Hc Hd Hf. unfold destination_dir, Py.subscript, year_of.
  rewrite Hc, Hd, Hf. simpl.
  destruct (bool_decide (d = "")); [done|]. simpl.
  by destruct (bool_decide (d = "unknown")).
Qed.

(** A file that [move_pdf] moves ends up in the destination
    directory, under the name [get_unique_filename] chose. *)
Lemma move_pdf_destination file_path ai_response w new_file_path w' :
  move_pdf file_path ai_response w = (Ok new_file_path, w') →
  ∃ year_dir new_filename f,
    destination_dir ai_response = Ok year_dir
    ∧ Py.subscript ai_response "filename" = Ok (JString new_filename)
    ∧ makedirs year_dir (fs w) = (true, f)
    ∧ new_file_path
      = path_join year_dir
          [get_unique_filename (dir_entries f year_dir) new_filename].
Proof.
  unfold move_pdf. intros Hm.
  destruct (destination_dir ai_response) as [year_dir|]; [|by destruct (Py.subscript _ _)].
  destruct (Py.subscript ai_response "filename") as [new_filename|]; [|done].
  destruct (makedirs year_dir (fs w)) as [[] f] eqn:Hmk; [|done].
  destruct new_filename as [| | | |new_filename| |]; try done.
  simpl in Hm. destruct (shutil_move _ _ _) as [[] f']; [|done].
  injection Hm as <- _. by exists year_dir, new_filename, f.
Qed.

End WithPlatform.

End FilingFacts.

(** ** The pipeline *)

Module PipelineFacts.

Section WithPlatform.

Context `{Platform}.

Lemma ocr_attempts_say m w :
  ocr_attempts (say m w)
  = ocr_attempts w ++ match m with TryingGPT4 p => [p] | _ => [] end.
Proof.
  unfold ocr_attempts, say. simpl. rewrite omap_app. simpl.
  by destruct m.
Qed.

Lemma filed_say m w :
  filed (say m w) = filed w ++ match m with MovedTo p => [p] | _ => [] end.
Proof.
  unfold filed, say. simpl. rewrite omap_app. simpl.
  by destruct m.
Qed.

Lemma quiet_trans w1 w2 w3 : quiet w1 w2 → quiet w2 w3 → quiet w1 w3.
Proof.
  intros (?&?&?&?&?&?) (?&?&?&?&?&?). repeat split; congruence.
Qed.

Lemma quiet_say m w :
  match m with TryingGPT4 _ | MovedTo _ => False | _ => True end →
  quiet w (say m w).
Proof.
  intros Hm. repeat split; try done.
  - rewrite ocr_attempts_say. destruct m; try done; by rewrite app_nil_r.
  - rewrite filed_say. destruct m; try done; by rewrite app_nil_r.
Qed.

Lemma pypdf_frame pdf_path w :
  quiet w (extract_text_with_pypdf pdf_path w).2
  ∧ chat_replies (extract_text_with_pypdf pdf_path w).2 = chat_replies w
  ∧ chat_requests (extract_text_with_pypdf pdf_path w).2 = chat_requests w.
Proof.
  unfold extract_text_with_pypdf. simpl.
  destruct (pypdf_pages (fs w) pdf_path); simpl.
  - split; [by apply quiet_say|done].
  - split; [|done].
    eapply quiet_trans; [|by apply quiet_say]. by apply quiet_say.
Qed.

(** [get_llm_metadata] takes the next answer of the chat endpoint
    and returns its value. *)
Lemma llm_frame text w :
  (get_llm_metadata text w).1 = reply_value (next_reply (chat_replies w))
  ∧ quiet w (get_llm_metadata text w).2
  ∧ chat_replies (get_llm_metadata text w).2 = tail (chat_replies w).
Proof.
  unfold get_llm_metadata, chat_create.
  destruct (next_reply (chat_replies w)) as [| |body [parsed|]]; simpl;
    (split; [done|]); (split; [|done]).
  - eapply quiet_trans; [|by apply quiet_say]. by repeat split.
  - eapply quiet_trans; [|by apply quiet_say]. by repeat split.
  - by repeat split.
  - eapply quiet_trans; [|by apply quiet_say].
    eapply quiet_trans; [|by apply quiet_say]. by repeat split.
Qed.

(** The prompt that goes out is the template with the first 3000
    characters of the text put in, as they are. *)
Lemma llm_request text w :
  next_reply (chat_replies w) ≠ ChatNoClient →
  chat_requests (get_llm_metadata text w).2
  = chat_requests w
    ++ [Str.replace "{PDF_TEXT}" (Str.take 3000 text) DOCUMENT_PROMPT].
Proof.
  unfold get_llm_metadata, chat_create.
  by destruct (next_reply (chat_replies w)) as [| |body [parsed|]].
Qed.

(** The image extractor leaves the file system and the chat
    endpoint alone and says that it started. *)
Lemma vision_frame pdf_path w :
  let w' := (extract_text_with_gpt4_vision pdf_path w).2 in
  fs w' = fs w ∧ chat_replies w' = chat_replies w
  ∧ chat_requests w' = chat_requests w ∧ filed w' = filed w
  ∧ ocr_attempts w' = ocr_attempts w ++ [pdf_path].
Proof.
  unfold extract_text_with_gpt4_vision, vision_create, ocr_attempts, filed.
  simpl.
  repeat (case_match; simpl);
    rewrite ?omap_app; simpl; by rewrite ?app_nil_r.
Qed.

(** The handle is closed once every page is rendered. *)
Lemma vision_closes pdf_path w pages images :
  pdfium_pages (fs w) pdf_path = Some pages →
  render_all pages = Some images →
  open_docs (extract_text_with_gpt4_vision pdf_path w).2 = open_docs w.
Proof.
  intros Hp Hr. unfold extract_text_with_gpt4_vision, vision_create.
  simpl. rewrite Hp, Hr. simpl. rewrite bool_decide_eq_true_2 by done.
  by repeat (case_match; simpl).
Qed.

(** It stays open when a page fails to render. *)
Lemma vision_leaks pdf_path w pages :
  pdfium_pages (fs w) pdf_path = Some pages →
  render_all pages = None →
  open_docs (extract_text_with_gpt4_vision pdf_path w).2
  = pdf_path :: open_docs w.
Proof.
  intros Hp Hr. unfold extract_text_with_gpt4_vision.
  simpl. by rewrite Hp, Hr.
Qed.

Lemma move_frame file_path ai_response w :
  let w' := (move_pdf file_path ai_response w).2 in
  chat_replies w' = chat_replies w ∧ chat_requests w' = chat_requests w
  ∧ open_docs w' = open_docs w ∧ vision_replies w' = vision_replies w
  ∧ vision_requests w' = vision_requests w
  ∧ ocr_attempts w' = ocr_attempts w.
Proof.
  unfold move_pdf, ocr_attempts. simpl.
  repeat (case_match; simpl);
    rewrite ?omap_app; simpl; by rewrite ?app_nil_r.
Qed.

Lemma conclude_frame filename ai_response w :
  let w' := (conclude filename ai_response w).2 in
  chat_replies w' = chat_replies w ∧ chat_requests w' = chat_requests w
  ∧ open_docs w' = open_docs w ∧ vision_replies w' = vision_replies w
  ∧ vision_requests w' = vision_requests w
  ∧ ocr_attempts w' = ocr_attempts w.
Proof.
  unfold conclude.
  destruct (is_unreadable ai_response) as [[]|e]; simpl.
  - repeat split; try done. rewrite ocr_attempts_say. by rewrite app_nil_r.
  - pose proof (move_frame filename ai_response w) as Hm. simpl in Hm.
    destruct (move_pdf filename ai_response w) as [[p|e] w']; simpl in *; [done|].
    destruct Hm as (?&?&?&?&?&?).
    repeat split; try done. rewrite ocr_attempts_say. by rewrite app_nil_r.
  - repeat split; try done. rewrite ocr_attempts_say. by rewrite app_nil_r.
Qed.

(** Without a result nothing is filed: [is_unreadable] raises. *)
Lemma conclude_absent filename w :
  conclude filename JNull w
  = (Caught AttributeError, say (ErrorProcessing filename AttributeError) w).
Proof. done. Qed.

(** [process_pdf], step by step. *)
Lemma process_pdf_steps filename w :
  let w1 := (extract_text_with_pypdf filename (say (Processing filename) w)).2 in
  let text := (extract_text_with_pypdf filename (say (Processing filename) w)).1 in
  let r := (get_llm_metadata text w1).1 in
  let w2 := (get_llm_metadata text w1).2 in
  process_pdf filename w
  = if negb (Py.truthy r) then (SkippedLLMError, say (SkippingLLMError filename) w2)
    else if is_ambiguous r
    then
      let w3 := say (Shown r) w2 in
      let text' := (extract_text_with_gpt4_vision filename w3).1 in
      let w4 := (extract_text_with_gpt4_vision filename w3).2 in
      conclude filename (get_llm_metadata text' w4).1 (get_llm_metadata text' w4).2
    else conclude filename r w2.
Proof.
  unfold process_pdf, conclude. simpl.
  destruct (extract_text_with_pypdf _ _) as [text w1]. simpl.
  destruct (get_llm_metadata text w1) as [r w2]. simpl.
  destruct (negb (Py.truthy r)); [done|].
  destruct (is_ambiguous r); [|done].
  destruct (extract_text_with_gpt4_vision _ _) as [text' w4]. simpl.
  by destruct (get_llm_metadata text' w4) as [r' w5].
Qed.

(** A falsy result holds neither of the two words. *)
Lemma falsy_not_ambiguous r : Py.truthy r = false → is_ambiguous r = false.
Proof.
  destruct r as [|[]|z|f|s|items|fields]; simpl; try done.
  - intros Hz. apply negb_false_iff, Z.eqb_eq in Hz. by subst.
  - intros Hf. apply negb_false_iff, orb_true_iff in Hf.
    destruct Hf as [Hf|Hf]; apply bool_decide_eq_true in Hf; by subst.
  - intros Hs. apply negb_false_iff, bool_decide_eq_true in Hs. by subst.
  - intros Hi. apply negb_false_iff, bool_decide_eq_true in Hi. by subst.
  - by destruct fields.
Qed.

Lemma is_ambiguous_spec r :
  is_ambiguous r = true
  ↔ (∃ pre post, Str.lower (Py.str r) = pre +:+ "unknown" +:+ post)
    ∨ (∃ pre post, Str.lower (Py.str r) = pre +:+ "unidentified" +:+ post).
Proof.
  unfold is_ambiguous.
  by rewrite orb_true_iff, !StrFacts.contains_spec.
Qed.

End WithPlatform.

End PipelineFacts.

Module OutcomeFacts.

Import PipelineFacts.

Section WithPlatform.

Context `{Platform}.

(** The world in which the first classification is asked for. *)
Lemma before_first_llm filename w :
  let w1 := (extract_text_with_pypdf filename (say (Processing filename) w)).2 in
  quiet w w1 ∧ chat_replies w1 = chat_replies w.
Proof.
  destruct (pypdf_frame filename (say (Processing filename) w)) as (Hq & Hc & _).
  split; [|done].
  eapply quiet_trans; [|exact Hq]. by apply quiet_say.
Qed.

(** A first result that is falsy ends the document at line 223. *)
Lemma process_pdf_falsy filename w :
  Py.truthy (reply_value (next_reply (chat_replies w))) = false →
  (process_pdf filename w).1 = SkippedLLMError
  ∧ quiet w (process_pdf filename w).2
  ∧ chat_replies (process_pdf filename w).2 = tail (chat_replies w).
Proof.
  intros Hr. rewrite process_pdf_steps. cbv zeta.
  destruct (before_first_llm filename w) as [Hq1 Hc1].
  set (w1 := (extract_text_with_pypdf _ _).2) in *.
  set (text := (extract_text_with_pypdf _ _).1).
  destruct (llm_frame text w1) as (Hv & Hq2 & Hc2).
  rewrite Hv, Hc1, Hr. simpl. split; [done|]. split.
  - eapply quiet_trans; [exact Hq1|].
    eapply quiet_trans; [exact Hq2|]. by apply quiet_say.
  - by rewrite Hc2, Hc1.
Qed.

(** A first result that is truthy and holds neither word goes on
    without the image extractor. *)
Lemma process_pdf_plain filename w :
  Py.truthy (reply_value (next_reply (chat_replies w))) = true →
  is_ambiguous (reply_value (next_reply (chat_replies w))) = false →
  let w' := (process_pdf filename w).2 in
  ocr_attempts w' = ocr_attempts w ∧ chat_replies w' = tail (chat_replies w)
  ∧ vision_requests w' = vision_requests w ∧ open_docs w' = open_docs w.
Proof.
  intros Ht Ha. rewrite process_pdf_steps. cbv zeta.
  destruct (before_first_llm filename w) as [(_&Ho1&_&Hv1&Hocr1&_) Hc1].
  set (w1 := (extract_text_with_pypdf _ _).2) in *.
  set (text := (extract_text_with_pypdf _ _).1).
  destruct (llm_frame text w1) as (Hv & (_&Ho2&_&Hv2&Hocr2&_) & Hc2).
  rewrite Hv, Hc1, Ht, Ha. simpl.
  set (w2 := (get_llm_metadata text w1).2) in *.
  destruct (conclude_frame filename (reply_value (next_reply (chat_replies w))) w2)
    as (Hc3 & _ & Ho3 & _ & Hv3 & Hocr3).
  simpl in *. repeat split; congruence.
Qed.

(** A first result that holds one of the words starts the image
    extractor and asks the chat endpoint again. *)
Lemma process_pdf_retry filename w :
  is_ambiguous (reply_value (next_reply (chat_replies w))) = true →
  let w' := (process_pdf filename w).2 in
  ocr_attempts w' = ocr_attempts w ++ [filename]
  ∧ chat_replies w' = tail (tail (chat_replies w)).
Proof.
  intros Ha. rewrite process_pdf_steps. cbv zeta.
  destruct (before_first_llm filename w) as [(_&_&_&_&Hocr1&_) Hc1].
  set (w1 := (extract_text_with_pypdf _ _).2) in *.
  set (text := (extract_text_with_pypdf _ _).1).
  destruct (llm_frame text w1) as (Hv & (_&_&_&_&Hocr2&_) & Hc2).
  rewrite Hv, Hc1, Ha.
  destruct (Py.truthy _) eqn:Ht;
    [|apply falsy_not_ambiguous in Ht; congruence].
  simpl negb. cbv iota.
  set (w2 := (get_llm_metadata text w1).2) in *.
  set (w3 := say (Shown _) w2).
  destruct (vision_frame filename w3) as (_ & Hc4 & _ & _ & Hocr4).
  set (w4 := (extract_text_with_gpt4_vision filename w3).2) in *.
  set (text' := (extract_text_with_gpt4_vision filename w3).1).
  destruct (llm_frame text' w4) as (_ & (_&_&_&_&Hocr5&_) & Hc5).
  destruct (conclude_frame filename (get_llm_metadata text' w4).1
              (get_llm_metadata text' w4).2) as (Hc6 & _ & _ & _ & _ & Hocr6).
  simpl in Hc6, Hocr6. rewrite Hc6, Hocr6, Hc5, Hocr5, Hc4, Hocr4.
  unfold w3. rewrite ocr_attempts_say, app_nil_r. simpl.
  split; congruence.
Qed.

(** When the second classification gives nothing either, the
    document ends in the [except] branch. *)
Lemma process_pdf_retry_absent filename w :
  is_ambiguous (reply_value (next_reply (chat_replies w))) = true →
  reply_value (next_reply (tail (chat_replies w))) = JNull →
  (process_pdf filename w).1 = Caught AttributeError
  ∧ fs (process_pdf filename w).2 = fs w
  ∧ filed (process_pdf filename w).2 = filed w.
Proof.
  intros Ha Hn. rewrite process_pdf_steps. cbv zeta.
  destruct (before_first_llm filename w) as [(Hf1&_&_&_&_&Hm1) Hc1].
  set (w1 := (extract_text_with_pypdf _ _).2) in *.
  set (text := (extract_text_with_pypdf _ _).1).
  destruct (llm_frame text w1) as (Hv & (Hf2&_&_&_&_&Hm2) & Hc2).
  rewrite Hv, Hc1, Ha.
  destruct (Py.truthy _) eqn:Ht;
    [|apply falsy_not_ambiguous in Ht; congruence].
  simpl negb. cbv iota.
  set (w2 := (get_llm_metadata text w1).2) in *.
  set (w3 := say (Shown _) w2).
  destruct (vision_frame filename w3) as (Hf4 & Hc4 & _ & Hm4 & _).
  set (w4 := (extract_text_with_gpt4_vision filename w3).2) in *.
  set (text' := (extract_text_with_gpt4_vision filename w3).1).
  destruct (llm_frame text' w4) as (Hv5 & (Hf5&_&_&_&_&Hm5) & _).
  assert (Hrest : chat_replies w4 = tail (chat_replies w)).
  { rewrite Hc4. unfold w3. simpl. by rewrite Hc2, Hc1. }
  rewrite Hv5, Hrest, Hn, conclude_absent. simpl.
  split; [done|]. split.
  - rewrite Hf5, Hf4. unfold w3. simpl. by rewrite Hf2, Hf1.
  - rewrite filed_say, app_nil_r, Hm5, Hm4. unfold w3.
    rewrite filed_say, app_nil_r. by rewrite Hm2, Hm1.
Qed.

(** The batch goes on after a document, however it ended. *)
Lemma process_listing_cons name others w :
  Py.endswith ".pdf" (Str.lower name) = true →
  let file_path := path_join INPUT_DIR [name] in
  let w' := (process_pdf file_path w).2 in
  process_listing (name :: others) w
  = ((file_path, (process_pdf file_path w).1)
       :: (process_listing others (say BlankLine w')).1,
     (process_listing others (say BlankLine w')).2).
Proof.
  intros Hpdf. simpl. rewrite Hpdf.
  destruct (process_pdf _ w) as [o w1]. simpl.
  by destruct (process_listing others _).
Qed.

End WithPlatform.

(** A document with a text layer and a confident answer is filed under
    its year and category; a name that is taken gets the suffix. *)
Example scenario_filed :
  (@process_pdf Demo.platform Demo.statement_path Demo.statement_world).1
  = Moved "D:\Documents\Filed\2023\2023 - Invoice\invoice.pdf".
Proof. vm_compute. reflexivity. Qed.

Example scenario_unreadable :
  let v := @process_pdf Demo.platform Demo.statement_path
             (Demo.set_replies
                [ChatBody "{...}" (Some (JObject [("category", JString "unreadable")]))]
                Demo.statement_world) in
  v.1 = SkippedUnreadable ∧ fs v.2 = fs Demo.statement_world.
Proof. split; vm_compute; reflexivity. Qed.

End OutcomeFacts.

(** * The claims *)

(** C1 fails on the code: [redact_sensitive_info] is never called.  The
    text of the document below names a social security number; the
    prompt that [process_pdf] hands to the chat endpoint holds it as it
    is, where the redactor would have put its replacement text. *)
Theorem unredacted_prompt_is_sent :
  let sent := chat_requests (@process_pdf Demo.platform Demo.statement_path
                               Demo.statement_world).2 in
  sent = ["Classify this document. Answer in JSON. Account holder SSN 123-45-6789"]
  ∧ Forall (λ prompt, Re.search SSN_RE None prompt = true) sent
  ∧ redact_sensitive_info "Account holder SSN 123-45-6789"
    = "Account holder SSN [REDACTED SSN]".
Proof.
  assert (Hsent : chat_requests (@process_pdf Demo.platform Demo.statement_path
                                   Demo.statement_world).2
                  = ["Classify this document. Answer in JSON. Account holder SSN 123-45-6789"])
    by (vm_compute; reflexivity).
  cbv zeta. rewrite Hsent. split; [done|]. split.
  - apply Forall_cons. split; [vm_compute; reflexivity|apply Forall_nil_2].
  - vm_compute. reflexivity.
Qed.

(** C2. The image extractor is started, and the document classified a
    second time, exactly when the first result, as [str] prints it and
    put in lower case, holds ["unknown"] or ["unidentified"] somewhere.
    With neither word the document goes on without the image extractor:
    it is not started, no image is sent, and only one answer of the chat
    endpoint is used. *)
Theorem ocr_retry_iff `{Platform} (filename : string) (w : World)
    (body : string) (r : json) (rest : list chat_reply) :
  chat_replies w = ChatBody body (Some r) :: rest →
  let w' := (process_pdf filename w).2 in
  let ambiguous :=
    (∃ pre post, Str.lower (Py.str r) = pre +:+ "unknown" +:+ post)
    ∨ (∃ pre post, Str.lower (Py.str r) = pre +:+ "unidentified" +:+ post) in
  (ambiguous →
     ocr_attempts w' = ocr_attempts w ++ [filename] ∧ chat_replies w' = tail rest)
  ∧ (¬ ambiguous →
       ocr_attempts w' = ocr_attempts w ∧ chat_replies w' = rest
       ∧ vision_requests w' = vision_requests w ∧ open_docs w' = open_docs w)
  ∧ (ocr_attempts w' ≠ ocr_attempts w ↔ ambiguous).
Proof.
  intros Hw w' ambiguous.
  assert (Hr : reply_value (next_reply (chat_replies w)) = r) by by rewrite Hw.
  assert (Hyes : ambiguous →
            ocr_attempts w' = ocr_attempts w ++ [filename] ∧ chat_replies w' = tail rest).
  { intros Ha%PipelineFacts.is_ambiguous_spec.
    destruct (OutcomeFacts.process_pdf_retry filename w) as [Ho Hc]; [by rewrite Hr|].
    split; [done|]. unfold w'. by rewrite Hc, Hw. }
  assert (Hno : ¬ ambiguous →
            ocr_attempts w' = ocr_attempts w ∧ chat_replies w' = rest
            ∧ vision_requests w' = vision_requests w ∧ open_docs w' = open_docs w).
  { intros Ha. unfold ambiguous in Ha.
    rewrite <- PipelineFacts.is_ambiguous_spec in Ha.
    apply not_true_is_false in Ha.
    destruct (Py.truthy r) eqn:Ht.
    - destruct (OutcomeFacts.process_pdf_plain filename w) as (Ho & Hc & Hv & Hd);
        [by rewrite Hr..|].
      unfold w'. by rewrite Hc, Hw.
    - destruct (OutcomeFacts.process_pdf_falsy filename w) as (_ & Hq & Hc);
        [by rewrite Hr|].
      destruct Hq as (_ & Hd & _ & Hv & Ho & _).
      unfold w'. by rewrite Hc, Hw. }
  split; [done|]. split; [done|]. split.
  - intros Hne. destruct (PipelineFacts.is_ambiguous_spec r) as [Hspec _].
    destruct (is_ambiguous r) eqn:Ha; [by apply Hspec|].
    exfalso. apply Hne. apply Hno. unfold ambiguous.
    rewrite <- PipelineFacts.is_ambiguous_spec. congruence.
  - intros Ha. destruct (Hyes Ha) as [Ho _]. rewrite Ho.
    intros Heq. apply (f_equal length) in Heq.
    rewrite length_app in Heq. simpl in Heq. lia.
Qed.

Lemma ocr_retry_iff_witness :
  ocr_attempts
    (@process_pdf Demo.platform Demo.statement_path
       (Demo.world ∅ [ChatBody "{...}" (Some Demo.undated)] [])).2
  = [Demo.statement_path].
Proof.
  refine (proj1 (proj1 (@ocr_retry_iff Demo.platform Demo.statement_path
                   (Demo.world ∅ [ChatBody "{...}" (Some Demo.undated)] [])
                   "{...}" Demo.undated [] _) _)).
  - reflexivity.
  - left. exists "{'category': 'letter', 'date': '", "', 'filename': 'letter.pdf'}".
    reflexivity.
Defined.

(** C3. [get_unique_filename] returns: one test more than the directory
    has names is enough fuel for the loop, and more fuel gives the same
    name [r].  The name returned is not in the directory.  It is the
    suggested name if that one is free; otherwise it is the suggested
    name with [-n] put before the extension, [n] being the smallest
    positive number for which that name is free.  So the name under
    which [move_pdf] files a document does not exist in the destination
    directory at that time. *)
Theorem get_unique_filename_spec `{Platform} (directory : gset string) (filename : string) :
  let r := get_unique_filename directory filename in
  let base_name := fst (splitext filename) in
  let ext := snd (splitext filename) in
  (∀ fuel, size directory < fuel →
     get_unique_filename_fuel fuel directory filename = Some r)
  ∧ base_name +:+ ext = filename
  ∧ (r ∉ directory)
  ∧ (filename ∉ directory → r = filename)
  ∧ (filename ∈ directory →
     ∃ n : N, (0 < n)%N
       ∧ r = base_name +:+ "-" +:+ pretty n +:+ ext
       ∧ ∀ m : N, (0 < m < n)%N →
           base_name +:+ "-" +:+ pretty m +:+ ext ∈ directory)
  ∧ (∀ file_path ai_response w new_file_path w',
       move_pdf file_path ai_response w = (Ok new_file_path, w') →
       ∃ year_dir name f,
         makedirs year_dir (fs w) = (true, f)
         ∧ new_file_path = path_join year_dir [name]
         ∧ name ∉ dir_entries f year_dir).
Proof.
  intros r base_name ext.
  assert (Hfree : ∀ dir name, get_unique_filename dir name ∉ dir).
  { intros dir name.
    destruct (UniqueFacts.unique_loop_enough dir name) as [x Hx].
    unfold get_unique_filename, get_unique_filename_fuel.
    destruct (splitext name) as [b e]. cbn [fst snd] in Hx. rewrite Hx. simpl.
    by apply UniqueFacts.unique_loop_spec in Hx as (? & _). }
  cut ((∀ fuel, size directory < fuel →
          get_unique_filename_fuel fuel directory filename = Some r)
       ∧ base_name +:+ ext = filename
       ∧ (r ∉ directory)
       ∧ (filename ∉ directory → r = filename)
       ∧ (filename ∈ directory →
          ∃ n : N, (0 < n)%N
            ∧ r = base_name +:+ "-" +:+ pretty n +:+ ext
            ∧ ∀ m : N, (0 < m < n)%N →
                base_name +:+ "-" +:+ pretty m +:+ ext ∈ directory)).
  { intros (H1 & H2 & H3 & H4 & H5). do 5 (split; [done|]).
    intros file_path ai_response w new_file_path w' Hm.
    apply FilingFacts.move_pdf_destination in Hm
      as (year_dir & name & f & _ & _ & Hmk & ->).
    eexists year_dir, _, f. split; [done|]. split; [done|]. apply Hfree. }
  destruct (UniqueFacts.unique_loop_enough directory filename) as [r' Hr'].
  assert (Hr : r = r').
  { unfold r, get_unique_filename, get_unique_filename_fuel.
    destruct (splitext filename) as [b e]. cbn [fst snd] in Hr'. by rewrite Hr'. }
  subst r'. split.
  { intros fuel Hfuel. unfold get_unique_filename_fuel.
    destruct (splitext filename) as [b e] eqn:Hsplit. cbn [fst snd] in Hr'.
    apply (UniqueFacts.unique_loop_mono _ _ _ (S (size directory))); [done|lia]. }
  split; [apply UniqueFacts.splitext_app|].
  apply UniqueFacts.unique_loop_spec in Hr' as (Hfresh & Hsame & Hnext).
  split; [done|]. split; [done|].
  intros Hin. destruct (Hnext Hin) as (k & Hk & Hrk & Hall).
  exists k. split; [lia|]. split; [done|].
  intros m Hm. apply Hall. lia.
Qed.

Lemma get_unique_filename_spec_witness :
  @get_unique_filename Demo.platform {[ "a.pdf"; "a-1.pdf"; "a-3.pdf" ]} "a.pdf" = "a-2.pdf"
  ∧ "a-2.pdf" ∉ ({[ "a.pdf"; "a-1.pdf"; "a-3.pdf" ]} : gset string).
Proof.
  pose proof (@get_unique_filename_spec Demo.platform
                {[ "a.pdf"; "a-1.pdf"; "a-3.pdf" ]} "a.pdf") as Hspec.
  split; [vm_compute; reflexivity|].
  destruct Hspec as (_ & _ & Hfresh & _).
  exact Hfresh.
Defined.

(** C4. Take a classification result, with its fields [category],
    [date] and [filename].  If [date] is present, that is a text that
    is not empty, and is not the sentinel ["unknown"], the destination
    directory is [OUTPUT_DIR], then the year, then [year - category],
    the year being the first four characters of [date].  If [date] is
    empty or absent, that is the empty text or [null], or is
    ["unknown"], the year is the placeholder ["Unkn"].  Whatever
    [move_pdf] moves goes into the destination directory.  An object
    that lacks the [date] key is no such result: the Filing Engine does
    not act on it, [move_pdf] raises [KeyError] and moves nothing. *)
Theorem destination_dir_spec `{Platform} (fields : list (string * json))
    (category fname : json) :
  Py.lookup "category" fields = Some category →
  Py.lookup "filename" fields = Some fname →
  (∀ d, Py.lookup "date" fields = Some (JString d) → d ≠ "" → d ≠ "unknown" →
     destination_dir (JObject fields)
     = Ok (path_join OUTPUT_DIR
             [Str.take 4 d; Str.take 4 d +:+ " - " +:+ Py.str category]))
  ∧ (∀ date, Py.lookup "date" fields = Some date →
       date = JString "" ∨ date = JNull ∨ date = JString "unknown" →
       destination_dir (JObject fields)
       = Ok (path_join OUTPUT_DIR ["Unkn"; "Unkn - " +:+ Py.str category]))
  ∧ (Py.lookup "date" fields = None →
       destination_dir (JObject fields) = Raise (KeyError "date")
       ∧ ∀ file_path w,
           move_pdf file_path (JObject fields) w = (Raise (KeyError "date"), w))
  ∧ (∀ file_path w new_file_path w',
       move_pdf file_path (JObject fields) w = (Ok new_file_path, w') →
       ∃ year_dir name,
         destination_dir (JObject fields) = Ok year_dir
         ∧ new_file_path = path_join year_dir [name]).
Proof.
  intros Hc Hf. split; [|split; [|split]].
  - intros d Hd Hne Hnu.
    rewrite (FilingFacts.destination_dir_string_date fields category d fname) by done.
    by rewrite !bool_decide_eq_false_2.
  - intros date Hd [-> | [-> | ->]].
    + by rewrite (FilingFacts.destination_dir_string_date fields category "" fname).
    + unfold destination_dir, Py.subscript. by rewrite Hc, Hd, Hf.
    + by rewrite (FilingFacts.destination_dir_string_date fields category "unknown" fname).
  - intros Hd.
    assert (Hdest : destination_dir (JObject fields) = Raise (KeyError "date")).
    { unfold destination_dir, Py.subscript. by rewrite Hc, Hd. }
    split; [done|]. intros file_path w. unfold move_pdf. by rewrite Hdest.
  - intros file_path w new_file_path w' Hm.
    apply FilingFacts.move_pdf_destination in Hm as (year_dir & name & f & Hd & _ & _ & ->).
    by eexists _, _.
Qed.

Lemma destination_dir_spec_witness :
  @destination_dir Demo.platform Demo.invoice
  = Ok "D:\Documents\Filed\2023\2023 - Invoice".
Proof.
  refine (proj1 (@destination_dir_spec Demo.platform
                   [("category", JString "Invoice"); ("date", JString "2023-04-01");
                    ("filename", JString "invoice.pdf")]
                   (JString "Invoice") (JString "invoice.pdf") _ _)
            "2023-04-01" _ _ _).
  - reflexivity.
  - reflexivity.
  - reflexivity.
  - discriminate.
  - discriminate.
Defined.

(** C5. A result is unreadable exactly when it is an object whose
    [category] is a text that, put in lower case, is ["unreadable"].
    For an object with a text as category the predicate answers with
    that comparison; two objects with the same [category] entry get the
    same answer, whatever their other fields; ["Unreadable"] is
    unreadable and ["unreadable memo"] is not. *)
Theorem is_unreadable_spec :
  (∀ r, is_unreadable r = Ok true
        ↔ ∃ fields category,
            r = JObject fields
            ∧ Py.lookup "category" fields = Some (JString category)
            ∧ Str.lower category = "unreadable")
  ∧ (∀ fields category,
       Py.lookup "category" fields = Some (JString category) →
       is_unreadable (JObject fields)
       = Ok (bool_decide (Str.lower category = "unreadable")))
  ∧ (∀ fields1 fields2,
       Py.lookup "category" fields1 = Py.lookup "category" fields2 →
       is_unreadable (JObject fields1) = is_unreadable (JObject fields2))
  ∧ is_unreadable (JObject [("category", JString "Unreadable")]) = Ok true
  ∧ is_unreadable (JObject [("category", JString "unreadable memo")]) = Ok false.
Proof.
  split; [|split; [|split; [|split]]].
  - intros r. split.
    + destruct r as [| | | | | |fields]; try done. simpl.
      destruct (Py.lookup "category" fields) as [[| | | |category| |]|] eqn:Hc;
        simpl; try done.
      intros [= Hl%bool_decide_eq_true]. by exists fields, category.
    + intros (fields & category & -> & Hc & Hl). simpl. rewrite Hc. simpl.
      by rewrite bool_decide_eq_true_2.
  - intros fields category Hc. simpl. by rewrite Hc.
  - intros fields1 fields2 Hc. simpl. by rewrite Hc.
  - reflexivity.
  - reflexivity.
Qed.

(** C6. When the first result starts the retry and the second
    classification gives nothing, the document ends in the [except]
    branch, that is in the state [Failed]: nothing is moved, the file
    system is as before (the source file with it), and in a batch the
    next documents are processed after it. *)
Theorem retry_without_result_fails `{Platform} (filename : string) (w : World)
    (body : string) (r : json) (rest : list chat_reply) :
  chat_replies w = ChatBody body (Some r) :: rest →
  is_ambiguous r = true →
  reply_value (next_reply rest) = JNull →
  let w' := (process_pdf filename w).2 in
  (process_pdf filename w).1 = Caught AttributeError
  ∧ final_state_of (process_pdf filename w).1 = Failed
  ∧ fs w' = fs w
  ∧ filed w' = filed w
  ∧ ∀ name others,
      Py.endswith ".pdf" (Str.lower name) = true →
      path_join INPUT_DIR [name] = filename →
      process_listing (name :: others) w
      = ((filename, Caught AttributeError)
           :: (process_listing others (say BlankLine w')).1,
         (process_listing others (say BlankLine w')).2).
Proof.
  intros Hw Ha Hn w'.
  destruct (OutcomeFacts.process_pdf_retry_absent filename w) as (Ho & Hf & Hm).
  { by rewrite Hw. }
  { by rewrite Hw. }
  split; [done|]. split; [by rewrite Ho|]. split; [done|]. split; [done|].
  intros name others Hpdf Hpath.
  rewrite OutcomeFacts.process_listing_cons by done.
  rewrite Hpath. by rewrite Ho.
Qed.

Lemma retry_without_result_fails_witness :
  (@process_pdf Demo.platform Demo.statement_path
     (Demo.set_replies [ChatBody "{...}" (Some Demo.undated)] Demo.statement_world)).1
  = Caught AttributeError.
Proof.
  refine (proj1 (@retry_without_result_fails Demo.platform Demo.statement_path
                   (Demo.set_replies [ChatBody "{...}" (Some Demo.undated)]
                      Demo.statement_world)
                   "{...}" Demo.undated [] _ _ _)).
  - reflexivity.
  - reflexivity.
  - reflexivity.
Defined.

(** C7 fails on the code where a page cannot be rendered: the second
    page of the scan below raises in the list comprehension of line 59,
    [pdf.close()] on line 61 is skipped, and the function returns the
    empty text with the handle still open.  A scan whose pages all
    render is closed. *)
Theorem render_fault_leaves_handle_open :
  let v := @extract_text_with_gpt4_vision Demo.platform Demo.scan_path Demo.scan_world in
  v.1 = "" ∧ open_docs v.2 = [Demo.scan_path]
  ∧ open_docs (@extract_text_with_gpt4_vision Demo.platform Demo.statement_path
                 Demo.statement_world).2 = [].
Proof.
  split; [vm_compute; reflexivity|].
  split.
  - apply (@PipelineFacts.vision_leaks Demo.platform Demo.scan_path Demo.scan_world
             [Some Demo.page; None]); reflexivity.
  - apply (@PipelineFacts.vision_closes Demo.platform Demo.statement_path
             Demo.statement_world [Some Demo.page] [Demo.page]); reflexivity.
Qed.

(** C8. The redactor is idempotent: redacting a redacted text gives the
    same text again.  The reason is the second part: the text that
    [redact_sensitive_info] returns holds no match of the SSN, the card
    or the account pattern any more, the replacement texts
    [[REDACTED ...]] included. *)
Theorem redact_idempotent (s : string) :
  redact_sensitive_info (redact_sensitive_info s) = redact_sensitive_info s
  ∧ Re.search SSN_RE None (redact_sensitive_info s) = false
  ∧ Re.search CARD_RE None (redact_sensitive_info s) = false
  ∧ Re.search ACCOUNT_RE None (redact_sensitive_info s) = false.
Proof.
  destruct (RedactFacts.redact_clean s) as (H1 & H2 & H3).
  split; [|done]. by apply RedactFacts.redact_fixed.
Qed.

(** C9. A first answer that parses to a falsy value, the empty object
    for one, ends the document like a missing answer does: [process_pdf]
    leaves at line 223, which is the state [Failed]; the image extractor
    is not started, nothing is moved and the file system is as before.
    Any answer without a value in the same place gives the same
    outcome, the same file system and the same readings of the
    console. *)
Theorem falsy_result_is_failure `{Platform} (filename : string) (w : World)
    (body : string) (r : json) (rest : list chat_reply) :
  chat_replies w = ChatBody body (Some r) :: rest →
  Py.truthy r = false →
  let w' := (process_pdf filename w).2 in
  (process_pdf filename w).1 = SkippedLLMError
  ∧ final_state_of (process_pdf filename w).1 = Failed
  ∧ fs w' = fs w ∧ filed w' = filed w ∧ ocr_attempts w' = ocr_attempts w
  ∧ vision_requests w' = vision_requests w ∧ open_docs w' = open_docs w
  ∧ chat_replies w' = rest
  ∧ ∀ absent, reply_value absent = JNull →
      let v := process_pdf filename (set_chat_replies (absent :: rest) w) in
      v.1 = (process_pdf filename w).1
      ∧ fs v.2 = fs w' ∧ filed v.2 = filed w' ∧ ocr_attempts v.2 = ocr_attempts w'
      ∧ vision_requests v.2 = vision_requests w' ∧ open_docs v.2 = open_docs w'
      ∧ chat_replies v.2 = chat_replies w'.
Proof.
  intros Hw Hr w'.
  destruct (OutcomeFacts.process_pdf_falsy filename w)
    as (Ho & (Hf & Hd & _ & Hv & Hocr & Hm) & Hc).
  { by rewrite Hw. }
  fold w' in Hf, Hd, Hv, Hocr, Hm, Hc. rewrite Hw in Hc. simpl in Hc.
  split; [done|]. split; [by rewrite Ho|].
  do 6 (split; [done|]).
  intros absent Habsent v.
  destruct (OutcomeFacts.process_pdf_falsy filename (set_chat_replies (absent :: rest) w))
    as (Ho' & (Hf' & Hd' & _ & Hv' & Hocr' & Hm') & Hc').
  { simpl. by rewrite Habsent. }
  fold v in Ho', Hf', Hd', Hv', Hocr', Hm', Hc'.
  rewrite Ho, Ho', Hf, Hf', Hd, Hd', Hv, Hv', Hocr, Hocr', Hm, Hm', Hc, Hc'.
  done.
Qed.

Lemma falsy_result_is_failure_witness :
  (@process_pdf Demo.platform Demo.statement_path
     (Demo.set_replies [ChatBody "{}" (Some (JObject []))] Demo.statement_world)).1
  = SkippedLLMError.
Proof.
  refine (proj1 (@falsy_result_is_failure Demo.platform Demo.statement_path
                   (Demo.set_replies [ChatBody "{}" (Some (JObject []))]
                      Demo.statement_world)
                   "{}" (JObject []) [] _ _)).
  - reflexivity.
  - reflexivity.
Defined.

(** C10. A date shorter than four characters is taken whole as the
    year: for a result with the three keys whose [date] is a text that
    is not empty, not ["unknown"] and has fewer than four characters,
    the destination directory is [OUTPUT_DIR], then [date], then
    [date - category]; and what [move_pdf] moves goes there. *)
Theorem destination_dir_short_date `{Platform} (fields : list (string * json))
    (category fname : json) (d : string) :
  Py.lookup "category" fields = Some category →
  Py.lookup "date" fields = Some (JString d) →
  Py.lookup "filename" fields = Some fname →
  d ≠ "" → d ≠ "unknown" → String.length d < 4 →
  destination_dir (JObject fields)
  = Ok (path_join OUTPUT_DIR [d; d +:+ " - " +:+ Py.str category])
  ∧ ∀ file_path w new_file_path w',
      move_pdf file_path (JObject fields) w = (Ok new_file_path, w') →
      ∃ name,
        new_file_path
        = path_join (path_join OUTPUT_DIR [d; d +:+ " - " +:+ Py.str category]) [name].
Proof.
  intros Hc Hd Hf Hne Hnu Hlen.
  assert (Hdest : destination_dir (JObject fields)
                  = Ok (path_join OUTPUT_DIR [d; d +:+ " - " +:+ Py.str category])).
  { rewrite (FilingFacts.destination_dir_string_date fields category d fname) by done.
    rewrite !bool_decide_eq_false_2 by done. cbn [orb]. cbv zeta.
    by rewrite StrFacts.take_all by lia. }
  split; [done|].
  intros file_path w new_file_path w' Hm.
  apply FilingFacts.move_pdf_destination in Hm as (year_dir & name & f & Hd' & _ & _ & ->).
  rewrite Hdest in Hd'. injection Hd' as <-. by eexists.
Qed.

Lemma destination_dir_short_date_witness :
  @destination_dir Demo.platform
    (JObject [("category", JString "Memo"); ("date", JString "98");
              ("filename", JString "memo.pdf")])
  = Ok "D:\Documents\Filed\98\98 - Memo".
Proof.
  refine (proj1 (@destination_dir_short_date Demo.platform
                   [("category", JString "Memo"); ("date", JString "98");
                    ("filename", JString "memo.pdf")]
                   (JString "Memo") (JString "memo.pdf") "98" _ _ _ _ _ _)).
  - reflexivity.
  - reflexivity.
  - reflexivity.
  - discriminate.
  - discriminate.
  - simpl. lia.
Defined.

(** * Further properties *)

(** ** Trimming and substitution *)

Module TextFacts.

Lemma last_cons d c s : Str.last d (String c s) = Str.last None (String c s).
Proof. done. Qed.

Lemma rstrip_cons c s :
  Str.rstrip (String c s) = ""
  ∨ ∃ r, Str.rstrip (String c s) = String c r.
Proof.
  simpl. destruct (Str.rstrip s); [|eauto].
  destruct (Char.py_isspace c); eauto.
Qed.

(** What [rstrip] returns does not end with whitespace. *)
Lemma rstrip_last s c :
  Str.last None (Str.rstrip s) = Some c → Char.py_isspace c = false.
Proof.
  induction s as [|a s IH]; [done|]. simpl.
  destruct (Str.rstrip s) as [|b r] eqn:Hr.
  - destruct (Char.py_isspace a) eqn:Ha; [done|]. simpl. by intros [= <-].
  - intros Hl. by apply IH.
Qed.

(** What [lstrip] returns does not start with whitespace. *)
Lemma lstrip_head s c :
  Str.head (Str.lstrip s) = Some c → Char.py_isspace c = false.
Proof.
  induction s as [|a s IH]; [done|]. simpl.
  destruct (Char.py_isspace a) eqn:Ha; [done|]. simpl. by intros [= <-].
Qed.

Lemma strip_head s c :
  Str.head (Str.strip s) = Some c → Char.py_isspace c = false.
Proof.
  unfold Str.strip. pose proof (lstrip_head s) as Hl.
  destruct (Str.lstrip s) as [|a t]; [done|].
  destruct (rstrip_cons a t) as [->|[r ->]]; [done|].
  simpl. intros [= <-]. by apply Hl.
Qed.

Lemma strip_last s c :
  Str.last None (Str.strip s) = Some c → Char.py_isspace c = false.
Proof. apply rstrip_last. Qed.

Lemma replace_go_skip old new : ∀ s k,
  Str.replace_go old new k s = Str.replace_go old new 0 (Str.drop k s).
Proof.
  induction s as [|c s IH]; intros [|k]; try done.
  simpl. apply IH.
Qed.

(** Without an occurrence [replace] changes nothing. *)
Lemma replace_absent old new s :
  Str.contains old s = false → Str.replace old new s = s.
Proof.
  unfold Str.replace. induction s as [|c s IH]; [done|].
  simpl. intros [Hs Hc]%orb_false_iff. rewrite Hs. by rewrite IH.
Qed.

(** Before the first character of [old] nothing is replaced. *)
Lemma replace_prefix a old new : ∀ pre rest,
  Str.existsb (λ c, bool_decide (c = a)) pre = false →
  Str.replace (String a old) new (pre +:+ rest)
  = pre +:+ Str.replace (String a old) new rest.
Proof.
  unfold Str.replace. induction pre as [|c pre IH]; intros rest Hpre; [done|].
  simpl in Hpre. apply orb_false_iff in Hpre as [Hc Hpre].
  apply bool_decide_eq_false in Hc.
  rewrite !StrFacts.app_cons. cbn [Str.replace_go Str.startswith].
  rewrite bool_decide_eq_false_2 by congruence. simpl. by rewrite IH.
Qed.

Lemma startswith_app old rest : Str.startswith old (old +:+ rest) = true.
Proof. apply StrFacts.startswith_spec. by exists rest. Qed.

Lemma drop_app s t : Str.drop (String.length s) (s +:+ t) = t.
Proof. induction s as [|c s IH]; [by destruct t|]. by rewrite StrFacts.app_cons. Qed.

(** An occurrence at the front is replaced, and the scan goes on behind
    it: the text put in is not looked at again. *)
Lemma replace_here a old new rest :
  Str.replace (String a old) new (String a old +:+ rest)
  = new +:+ Str.replace (String a old) new rest.
Proof.
  unfold Str.replace. rewrite StrFacts.app_cons.
  cbn [Str.replace_go]. rewrite <- StrFacts.app_cons.
  rewrite startswith_app.
  replace (String.length (String a old) - 1) with (String.length old)
    by (simpl; lia).
  rewrite replace_go_skip. by rewrite drop_app.
Qed.

(** A text without a digit holds no match of a shaped pattern. *)
Lemma no_digit_no_match t0 p : ∀ s prev,
  Re.shape t0 p = true → Re.no_digit s = true → Re.search p prev s = false.
Proof.
  induction s as [|c s IH]; intros prev Hp Hs; simpl; unfold Re.matches.
  - by rewrite (ReFacts.shape_empty t0).
  - apply andb_true_iff in Hs as [Hc Hs]. apply negb_true_iff in Hc.
    rewrite (ReFacts.shape_head t0) by done. simpl. by apply IH.
Qed.

End TextFacts.

(** X1. [extract_text_with_pypdf] returns a trimmed text: it neither
    starts nor ends with whitespace.  When the library raises it returns
    the empty text.  In both cases the file system, the two endpoints
    and the open handles are as before. *)
Theorem pypdf_text_is_trimmed `{Platform} (pdf_path : string) (w : World) :
  let v := extract_text_with_pypdf pdf_path w in
  (∀ c, Str.head v.1 = Some c ∨ Str.last None v.1 = Some c →
        Char.py_isspace c = false)
  ∧ (pypdf_pages (fs w) pdf_path = None → v.1 = "")
  ∧ fs v.2 = fs w
  ∧ chat_replies v.2 = chat_replies w ∧ chat_requests v.2 = chat_requests w
  ∧ vision_replies v.2 = vision_replies w ∧ vision_requests v.2 = vision_requests w
  ∧ open_docs v.2 = open_docs w.
Proof.
  intros v. split; [|split].
  - intros c. unfold v, extract_text_with_pypdf. simpl.
    destruct (pypdf_pages (fs w) pdf_path); simpl.
    + intros [Hc|Hc]; [by apply TextFacts.strip_head in Hc|by apply TextFacts.strip_last in Hc].
    + by intros [?|?].
  - intros Hp. unfold v, extract_text_with_pypdf. simpl. by rewrite Hp.
  - destruct (PipelineFacts.pypdf_frame pdf_path w) as ((?&?&?&?&_) & ? & ?).
    by repeat split.
Qed.

(** X2. When the prompt template holds no [{PDF_TEXT}], which is so for
    the empty template that stands in for an unset [DOCUMENT_PROMPT],
    the prompt handed to the chat endpoint is the template itself: the
    text of the document is not part of it. *)
Theorem prompt_without_placeholder `{Platform} (text : string) (w : World) :
  Str.contains "{PDF_TEXT}" DOCUMENT_PROMPT = false →
  next_reply (chat_replies w) ≠ ChatNoClient →
  chat_requests (get_llm_metadata text w).2 = chat_requests w ++ [DOCUMENT_PROMPT].
Proof.
  intros Hc Hr. rewrite PipelineFacts.llm_request by done.
  by rewrite TextFacts.replace_absent.
Qed.

Lemma prompt_without_placeholder_witness :
  chat_requests
    (@get_llm_metadata Fixtures.bare_platform "Account holder SSN 123-45-6789"
       Fixtures.bare_world).2
  = [""].
Proof.
  refine (@prompt_without_placeholder Fixtures.bare_platform
            "Account holder SSN 123-45-6789" Fixtures.bare_world _ _).
  - reflexivity.
  - discriminate.
Defined.

(** X3. When the template is [pre{PDF_TEXT}post] with no brace in [pre]
    and no further placeholder in [post], the prompt is [pre], then the
    first 3000 characters of the text, then [post].  The text is put in
    as it is: a placeholder inside the text is not expanded again, and
    nothing behind the 3000th character is sent. *)
Theorem prompt_with_placeholder `{Platform} (pre post text : string) (w : World) :
  DOCUMENT_PROMPT = pre +:+ "{PDF_TEXT}" +:+ post →
  Str.existsb (λ c, bool_decide (c = "{"%char)) pre = false →
  Str.contains "{PDF_TEXT}" post = false →
  next_reply (chat_replies w) ≠ ChatNoClient →
  chat_requests (get_llm_metadata text w).2
  = chat_requests w ++ [pre +:+ Str.take 3000 text +:+ post]
  ∧ String.length (Str.take 3000 text) ≤ 3000.
Proof.
  intros Hd Hpre Hpost Hr. split.
  - rewrite PipelineFacts.llm_request by done. rewrite Hd.
    rewrite (TextFacts.replace_prefix "{" "PDF_TEXT}") by done.
    rewrite (TextFacts.replace_here "{" "PDF_TEXT}").
    by rewrite TextFacts.replace_absent.
  - generalize 3000. intros n. revert text.
    induction n as [|n IH]; intros [|c text]; simpl; try lia.
    specialize (IH text). lia.
Qed.

Lemma prompt_with_placeholder_witness :
  chat_requests
    (@get_llm_metadata Demo.platform "see {PDF_TEXT}" Demo.statement_world).2
  = ["Classify this document. Answer in JSON. see {PDF_TEXT}"].
Proof.
  refine (proj1 (@prompt_with_placeholder Demo.platform
                   "Classify this document. Answer in JSON. " "" "see {PDF_TEXT}"
                   Demo.statement_world _ _ _ _)).
  - reflexivity.
  - reflexivity.
  - reflexivity.
  - discriminate.
Defined.

(** X4. A text without a digit goes through the redactor unchanged. *)
Theorem redact_without_digit (s : string) :
  Re.no_digit s = true → redact_sensitive_info s = s.
Proof.
  intros Hs. apply RedactFacts.redact_fixed.
  - by apply (TextFacts.no_digit_no_match bracket).
  - by apply (TextFacts.no_digit_no_match bracket).
  - by apply (TextFacts.no_digit_no_match bracket).
Qed.

Lemma redact_without_digit_witness :
  redact_sensitive_info "Dear customer, [REDACTED SSN]" = "Dear customer, [REDACTED SSN]".
Proof.
  refine (redact_without_digit "Dear customer, [REDACTED SSN]" _).
  reflexivity.
Defined.

(** ** The image extractor *)

Module VisionFacts.

Section WithPlatform.

Context `{Platform}.

Lemma render_all_length pages images :
  render_all pages = Some images → length images = length pages.
Proof.
  revert images. induction pages as [|[img|] pages IH]; intros images; simpl.
  - by intros [= <-].
  - destruct (render_all pages) as [rest|]; [|done].
    intros [= <-]. simpl. by rewrite (IH rest).
  - done.
Qed.




End WithPlatform.

End VisionFacts.


(** X6. [extract_text_with_gpt4_vision] sends at most one request.  It
    sends one only when the document opened, every page rendered, there
    is at least one page and the stacked image was encoded; the request
    then carries the encoded image as a PNG data URL.  When the document
    does not open, a page fails to render or there is no page, it
    returns the empty text and neither sends a request nor uses an
    answer of the endpoint. *)
Theorem vision_request_needs_pages `{Platform} (pdf_path : string) (w : World) :
  let v := extract_text_with_gpt4_vision pdf_path w in
  (vision_requests v.2 ≠ vision_requests w →
     ∃ pages images encoded,
       pdfium_pages (fs w) pdf_path = Some pages
       ∧ render_all pages = Some images ∧ images ≠ []
       ∧ length images = length pages
       ∧ encode_image (stack images) = Some encoded
       ∧ vision_requests v.2
         = vision_requests w ++ ["data:image/png;base64," +:+ encoded])
  ∧ (pdfium_pages (fs w) pdf_path = None
     ∨ (∃ pages, pdfium_pages (fs w) pdf_path = Some pages
                 ∧ (render_all pages = None ∨ render_all pages = Some [])) →
     v.1 = "" ∧ vision_requests v.2 = vision_requests w
     ∧ vision_replies v.2 = vision_replies w)
  ∧ length (vision_requests v.2) ≤ length (vision_requests w) + 1.
Proof.
  intros v. unfold v, extract_text_with_gpt4_vision. simpl.
  split; [|split].
  - destruct (pdfium_pages (fs w) pdf_path) as [pages|] eqn:Hp; simpl; [|done].
    destruct (render_all pages) as [images|] eqn:Hr; simpl; [|done].
    destruct images as [|img images]; simpl; [done|].
    destruct (encode_image _) as [encoded|] eqn:He; simpl; [|done].
    unfold vision_create. simpl.
    destruct (vision_replies w) as [|[| |content] rest] eqn:Hv; simpl; try done;
      intros _; exists pages, (img :: images), encoded;
      repeat split; try done; by apply VisionFacts.render_all_length.
  - intros [Hp|(pages & Hp & [Hr|Hr])]; rewrite Hp; simpl; [done|..];
      by rewrite Hr.
  - destruct (pdfium_pages (fs w) pdf_path) as [pages|]; simpl; [|lia].
    destruct (render_all pages) as [[|img images]|]; simpl; [lia| |lia].
    destruct (encode_image _) as [encoded|]; simpl; [|lia].
    unfold vision_create. simpl.
    destruct (vision_replies w) as [|[| |content] rest]; simpl;
      rewrite ?length_app; simpl; lia.
Qed.

(** X7. The [PdfDocument] handle is open at the return only when a page
    failed to render: in every other case the list of open handles is
    as before the call. *)
Theorem vision_handle_accounting `{Platform} (pdf_path : string) (w : World) :
  let v := extract_text_with_gpt4_vision pdf_path w in
  open_docs v.2 = open_docs w
  ∨ (∃ pages, pdfium_pages (fs w) pdf_path = Some pages
              ∧ render_all pages = None
              ∧ v.1 = ""
              ∧ open_docs v.2 = pdf_path :: open_docs w).
Proof.
  intros v. unfold v, extract_text_with_gpt4_vision. simpl.
  destruct (pdfium_pages (fs w) pdf_path) as [pages|] eqn:Hp; simpl; [|by left].
  destruct (render_all pages) as [images|] eqn:Hr; simpl;
    [|right; by exists pages].
  left. rewrite bool_decide_eq_true_2 by done.
  destruct images as [|img images]; simpl; [done|].
  destruct (encode_image _) as [encoded|]; simpl; [|done].
  unfold vision_create. simpl.
  by destruct (vision_replies w) as [|[| |content] rest].
Qed.

(** ** Filing *)

Module MoveFacts.

Section WithPlatform.

Context `{Platform}.

Lemma take_length n : ∀ s, String.length (Str.take n s) = n `min` String.length s.
Proof.
  induction n as [|n IH]; intros [|c s]; simpl; try done.
  by rewrite IH.
Qed.

(** The name [get_unique_filename] returns, by what singles it out. *)
Lemma get_unique_filename_char (dir : gset string) filename :
  let r := get_unique_filename dir filename in
  let b := fst (splitext filename) in
  let e := snd (splitext filename) in
  (r ∉ dir)
  ∧ (filename ∉ dir → r = filename)
  ∧ (filename ∈ dir →
     ∃ k, (1 ≤ k)%N ∧ r = numbered b e k
          ∧ ∀ m, (1 ≤ m < k)%N → numbered b e m ∈ dir).
Proof.
  intros r b e.
  destruct (UniqueFacts.unique_loop_enough dir filename) as [x Hx].
  assert (r = x) as ->.
  { unfold r, get_unique_filename, get_unique_filename_fuel.
    destruct (splitext filename). cbn [fst snd] in Hx. by rewrite Hx. }
  by apply UniqueFacts.unique_loop_spec in Hx.
Qed.

Lemma move_pdf_filed file_path ai_response w :
  match (move_pdf file_path ai_response w).1 with
  | Ok p => filed (move_pdf file_path ai_response w).2 = filed w ++ [p]
  | Raise _ => filed (move_pdf file_path ai_response w).2 = filed w
  end.
Proof.
  unfold move_pdf.
  destruct (destination_dir ai_response) as [year_dir|];
    [|by destruct (Py.subscript ai_response "filename")].
  destruct (Py.subscript ai_response "filename") as [fname|]; [|done].
  destruct (makedirs year_dir (fs w)) as [[] f]; [|done].
  destruct fname as [| | | |new_filename| |]; try done. simpl.
  destruct (shutil_move _ _ _) as [[] f']; simpl; [|done].
  by rewrite PipelineFacts.filed_say.
Qed.

End WithPlatform.

End MoveFacts.

(** X8. [move_pdf] reads the keys in the order [category], [date],
    [filename]: the first one that is missing gives the [KeyError], a
    result that is no object gives a [TypeError], and in each of these
    cases nothing has happened yet: no directory is made, no file is
    moved, no line is printed. *)
Theorem move_pdf_missing_key `{Platform} (file_path : string) (w : World) :
  (∀ r, (∀ fields, r ≠ JObject fields) →
        move_pdf file_path r w = (Raise TypeError, w))
  ∧ ∀ fields,
      (Py.lookup "category" fields = None →
       move_pdf file_path (JObject fields) w = (Raise (KeyError "category"), w))
      ∧ (is_Some (Py.lookup "category" fields) →
         Py.lookup "date" fields = None →
         move_pdf file_path (JObject fields) w = (Raise (KeyError "date"), w))
      ∧ (is_Some (Py.lookup "category" fields) →
         is_Some (Py.lookup "date" fields) →
         Py.lookup "filename" fields = None →
         move_pdf file_path (JObject fields) w = (Raise (KeyError "filename"), w)).
Proof.
  split.
  - intros r Hr. destruct r as [| | | | | |fields]; try done. by destruct (Hr fields).
  - intros fields. unfold move_pdf, destination_dir, Py.subscript.
    split; [|split].
    + by intros ->.
    + by intros [c ->] ->.
    + by intros [c ->] [d ->] ->.
Qed.

(** X9. A [date] that is no text: when it is falsy (zero, [false],
    [null], an empty list or object) the year is ["Unkn"] as for the
    empty text; when it is a number other than zero, [true] or a list
    that is not empty, [move_pdf] raises [TypeError] before any
    directory is made. *)
Theorem move_pdf_date_not_text `{Platform} (fields : list (string * json))
    (category date fname : json) :
  Py.lookup "category" fields = Some category →
  Py.lookup "date" fields = Some date →
  Py.lookup "filename" fields = Some fname →
  (∀ s, date ≠ JString s) →
  (Py.truthy date = false →
   destination_dir (JObject fields)
   = Ok (path_join OUTPUT_DIR ["Unkn"; "Unkn - " +:+ Py.str category]))
  ∧ (Py.truthy date = true → (∀ entries, date ≠ JObject entries) →
     ∀ file_path w, move_pdf file_path (JObject fields) w = (Raise TypeError, w)).
Proof.
  intros Hc Hd Hf Hs. split.
  - intros Ht. unfold destination_dir, Py.subscript, year_of.
    rewrite Hc, Hd, Hf, Ht. done.
  - intros Ht Ho file_path w.
    assert (Hdest : destination_dir (JObject fields) = Raise TypeError).
    { unfold destination_dir, Py.subscript, year_of.
      rewrite Hc, Hd, Hf, Ht.
      destruct date as [| | | |s| |entries]; try done.
      - by destruct (Hs s).
      - by destruct (Ho entries). }
    unfold move_pdf. rewrite Hdest.
    by destruct (Py.subscript (JObject fields) "filename").
Qed.

Lemma move_pdf_date_not_text_witness :
  @move_pdf Demo.platform Demo.statement_path Fixtures.numeric_date
    Demo.statement_world
  = (Raise TypeError, Demo.statement_world).
Proof.
  refine (proj2 (@move_pdf_date_not_text Demo.platform
                   [("category", JString "Invoice"); ("date", JInt 2023);
                    ("filename", JString "invoice.pdf")]
                   (JString "Invoice") (JInt 2023) (JString "invoice.pdf") _ _ _ _)
            _ _ Demo.statement_path Demo.statement_world).
  - reflexivity.
  - reflexivity.
  - reflexivity.
  - discriminate.
  - reflexivity.
  - discriminate.
Defined.

(** X10. A [filename] that is no text is found out late: the
    destination directory has been made when [os.path.splitext] raises
    the [TypeError]; no file is moved and no move is printed. *)
Theorem move_pdf_filename_not_text `{Platform} (file_path : string)
    (fields : list (string * json)) (fname : json) (year_dir : string)
    (w : World) (f : FS) :
  destination_dir (JObject fields) = Ok year_dir →
  Py.lookup "filename" fields = Some fname →
  (∀ s, fname ≠ JString s) →
  makedirs year_dir (fs w) = (true, f) →
  move_pdf file_path (JObject fields) w = (Raise TypeError, set_fs f w)
  ∧ filed (set_fs f w) = filed w.
Proof.
  intros Hd Hf Hs Hmk. split; [|done].
  unfold move_pdf, Py.subscript. rewrite Hd, Hf, Hmk.
  destruct fname as [| | | |s| |]; try done. by destruct (Hs s).
Qed.

Lemma move_pdf_filename_not_text_witness :
  (@move_pdf Demo.platform Demo.statement_path Fixtures.numeric_filename
     Demo.statement_world).1
  = Raise TypeError.
Proof.
  refine (f_equal fst (proj1 (@move_pdf_filename_not_text Demo.platform
            Demo.statement_path
            [("category", JString "Invoice"); ("date", JString "2023-04-01");
             ("filename", JInt 7)]
            (JInt 7) "D:\Documents\Filed\2023\2023 - Invoice"
            Demo.statement_world (fs Demo.statement_world) _ _ _ _))).
  - reflexivity.
  - reflexivity.
  - discriminate.
  - reflexivity.
Defined.

(** X11. For a [date] that is a text the year is a text of one to four
    characters: the placeholder, or the first characters of the date.
    So the year is never empty. *)
Theorem year_of_text (d : string) :
  ∃ y, year_of (JString d) = Ok (JString y)
       ∧ 1 ≤ String.length y ≤ 4
       ∧ (y = "Unkn" ∨ (d ≠ "" ∧ d ≠ "unknown" ∧ y = Str.take 4 d)).
Proof.
  unfold year_of. simpl.
  destruct (decide (d = "")) as [->|Hne]; [exists "Unkn"; simpl; by auto with lia|].
  destruct (decide (d = "unknown")) as [->|Hnu]; [exists "Unkn"; simpl; by auto with lia|].
  rewrite !bool_decide_eq_false_2 by done. simpl.
  exists (Str.take 4 d). split; [done|]. split; [|by right].
  destruct d as [|c d]; [done|].
  rewrite MoveFacts.take_length. simpl String.length. lia.
Qed.

(** X12. The name chosen does not depend on files that do not get in
    its way: when the directory has grown and the name chosen before is
    still free, it is chosen again.  And once that name is taken, the
    next document with the same suggested name gets another one. *)
Theorem get_unique_filename_stable `{Platform} (dir dir' : gset string)
    (filename : string) :
  dir ⊆ dir' →
  (get_unique_filename dir filename ∉ dir' →
   get_unique_filename dir' filename = get_unique_filename dir filename)
  ∧ get_unique_filename ({[get_unique_filename dir filename]} ∪ dir) filename
    ≠ get_unique_filename dir filename.
Proof.
  intros Hsub. split.
  - intros Hfree.
    destruct (MoveFacts.get_unique_filename_char dir filename) as (_ & Hsame & Hnext).
    destruct (MoveFacts.get_unique_filename_char dir' filename) as (Hfree' & Hsame' & Hnext').
    set (r := get_unique_filename dir filename) in *.
    set (r' := get_unique_filename dir' filename) in *.
    destruct (decide (filename ∈ dir')) as [Hin'|Hout'].
    + destruct (decide (filename ∈ dir)) as [Hin|Hout].
      * destruct (Hnext Hin) as (k & Hk & Hr & Hall).
        destruct (Hnext' Hin') as (k' & Hk' & Hr' & Hall').
        destruct (decide (k = k')) as [->|Hne]; [congruence|exfalso].
        destruct (decide (k < k')%N).
        -- apply Hfree. rewrite Hr. apply Hall'. lia.
        -- apply Hfree'. rewrite Hr'. apply Hsub, Hall. lia.
      * exfalso. apply Hfree. by rewrite (Hsame Hout).
    + rewrite (Hsame' Hout'). symmetry. apply Hsame.
      intros Hin. by apply Hout', Hsub.
  - intros Heq.
    destruct (MoveFacts.get_unique_filename_char
                ({[get_unique_filename dir filename]} ∪ dir) filename) as (Hfree & _).
    rewrite Heq in Hfree. apply Hfree, elem_of_union_l. by apply elem_of_singleton.
Qed.

Lemma get_unique_filename_stable_witness :
  @get_unique_filename Demo.platform {[ "a.pdf"; "b.pdf" ]} "a.pdf" = "a-1.pdf".
Proof.
  refine (eq_trans (proj1 (@get_unique_filename_stable Demo.platform
                             {[ "a.pdf" ]} {[ "a.pdf"; "b.pdf" ]} "a.pdf" _) _) _).
  - apply (bool_decide_unpack _). vm_compute. exact I.
  - apply (bool_decide_unpack _). vm_compute. exact I.
  - vm_compute. reflexivity.
Defined.

(** ** One document, and a batch *)

Module RunFacts.

Import PipelineFacts.

Section WithPlatform.

Context `{Platform}.

(** A list that has grown by at most [n] entries at its end. *)
Lemma grown_refl (l : list string) : ∃ more, l = l ++ more ∧ length more ≤ 0.
Proof. exists []. by rewrite app_nil_r. Qed.

Lemma llm_requests text w :
  ∃ more, chat_requests (get_llm_metadata text w).2 = chat_requests w ++ more
          ∧ length more ≤ 1.
Proof.
  unfold get_llm_metadata, chat_create.
  destruct (next_reply (chat_replies w)) as [| |body [parsed|]]; simpl;
    first [by exists []; rewrite app_nil_r; auto | by eexists [_]; auto].
Qed.

Lemma vision_requests_grow pdf_path w :
  ∃ more,
    vision_requests (extract_text_with_gpt4_vision pdf_path w).2
    = vision_requests w ++ more
    ∧ length more ≤ 1.
Proof.
  unfold extract_text_with_gpt4_vision, vision_create. simpl.
  repeat (case_match; simpl);
    first [by exists []; rewrite app_nil_r; auto | by eexists [_]; auto].
Qed.

(** Up to the unreadable test nothing touches the file system or
    moves a file. *)
Lemma vision_fs pdf_path w :
  fs (extract_text_with_gpt4_vision pdf_path w).2 = fs w
  ∧ filed (extract_text_with_gpt4_vision pdf_path w).2 = filed w.
Proof. destruct (vision_frame pdf_path w) as (? & _ & _ & ? & _). done. Qed.

Lemma conclude_filed filename r w :
  match (conclude filename r w).1 with
  | Moved p => filed (conclude filename r w).2 = filed w ++ [p]
  | SkippedUnreadable =>
      filed (conclude filename r w).2 = filed w ∧ fs (conclude filename r w).2 = fs w
  | SkippedLLMError => False
  | Caught _ => filed (conclude filename r w).2 = filed w
  end.
Proof.
  unfold conclude. destruct (is_unreadable r) as [[]|e]; simpl.
  - split; [|done]. by rewrite filed_say, app_nil_r.
  - pose proof (MoveFacts.move_pdf_filed filename r w) as Hm.
    destruct (move_pdf filename r w) as [[p|e] w']; simpl in *; [done|].
    by rewrite filed_say, app_nil_r.
  - by rewrite filed_say, app_nil_r.
Qed.

(** [process_pdf] is [conclude] on a world with the old file system
    and the old moves, or it left at line 223. *)
Lemma process_pdf_shape filename w :
  ((process_pdf filename w).1 = SkippedLLMError
   ∧ fs (process_pdf filename w).2 = fs w
   ∧ filed (process_pdf filename w).2 = filed w)
  ∨ ∃ r w0, process_pdf filename w = conclude filename r w0
            ∧ fs w0 = fs w ∧ filed w0 = filed w
            ∧ Py.truthy (reply_value (next_reply (chat_replies w))) = true
            ∧ (is_ambiguous (reply_value (next_reply (chat_replies w))) = false →
               r = reply_value (next_reply (chat_replies w))).
Proof.
  rewrite process_pdf_steps. cbv zeta.
  destruct (OutcomeFacts.before_first_llm filename w) as [(Hf1&_&_&_&_&Hm1) Hc1].
  set (w1 := (extract_text_with_pypdf _ _).2) in *.
  set (text := (extract_text_with_pypdf _ _).1).
  destruct (llm_frame text w1) as (Hv & (Hf2&_&_&_&_&Hm2) & Hc2).
  rewrite Hv, Hc1.
  set (r := reply_value (next_reply (chat_replies w))) in *.
  set (w2 := (get_llm_metadata text w1).2) in *.
  destruct (Py.truthy r) eqn:Ht; simpl.
  - right. destruct (is_ambiguous r) eqn:Ha.
    + set (w3 := say (Shown r) w2).
      destruct (vision_fs filename w3) as [Hf4 Hm4].
      set (w4 := (extract_text_with_gpt4_vision filename w3).2) in *.
      set (text' := (extract_text_with_gpt4_vision filename w3).1).
      destruct (llm_frame text' w4) as (_ & (Hf5&_&_&_&_&Hm5) & _).
      eexists _, _. split; [done|]. split; [|split; [|done]].
      * rewrite Hf5, Hf4. unfold w3. simpl. by rewrite Hf2.
      * rewrite Hm5, Hm4. unfold w3. rewrite filed_say, app_nil_r. by rewrite Hm2.
    + eexists _, _. split; [done|]. split; [congruence|]. split; [congruence|done].
  - left. split; [done|]. split; [simpl; congruence|].
    rewrite filed_say, app_nil_r. congruence.
Qed.

End WithPlatform.

End RunFacts.

(** X13. One document costs at most two requests to the chat endpoint
    and at most one to the vision endpoint; the requests made before
    stay in place. *)
Theorem process_pdf_request_budget `{Platform} (filename : string) (w : World) :
  let w' := (process_pdf filename w).2 in
  (∃ more, chat_requests w' = chat_requests w ++ more ∧ length more ≤ 2)
  ∧ (∃ more, vision_requests w' = vision_requests w ++ more ∧ length more ≤ 1).
Proof.
  intros w'. unfold w'. rewrite PipelineFacts.process_pdf_steps. cbv zeta.
  destruct (PipelineFacts.pypdf_frame filename (say (Processing filename) w))
    as ((_&_&_&Hv1&_) & _ & Hq1).
  set (w1 := (extract_text_with_pypdf _ _).2) in *.
  set (text := (extract_text_with_pypdf _ _).1).
  destruct (PipelineFacts.llm_frame text w1) as (_ & (_&_&_&Hv2&_) & _).
  destruct (RunFacts.llm_requests text w1) as (m2 & Hq2 & Hl2).
  set (r := (get_llm_metadata text w1).1) in *.
  set (w2 := (get_llm_metadata text w1).2) in *.
  simpl in Hq1, Hv1.
  destruct (negb (Py.truthy r)); simpl.
  { split; [exists m2; split; [congruence|lia]|].
    exists []. rewrite app_nil_r. split; [congruence|simpl; lia]. }
  destruct (is_ambiguous r).
  - set (w3 := say (Shown r) w2).
    destruct (PipelineFacts.vision_frame filename w3) as (_ & _ & Hq4 & _).
    destruct (RunFacts.vision_requests_grow filename w3) as (m4 & Hv4 & Hl4).
    set (w4 := (extract_text_with_gpt4_vision filename w3).2) in *.
    set (text' := (extract_text_with_gpt4_vision filename w3).1).
    destruct (PipelineFacts.llm_frame text' w4) as (_ & (_&_&_&Hv5&_) & _).
    destruct (RunFacts.llm_requests text' w4) as (m5 & Hq5 & Hl5).
    destruct (PipelineFacts.conclude_frame filename (get_llm_metadata text' w4).1
                (get_llm_metadata text' w4).2) as (_ & Hq6 & _ & _ & Hv6 & _).
    simpl in Hq6, Hv6. split.
    + exists (m2 ++ m5). rewrite length_app. split; [|lia].
      rewrite Hq6, Hq5, Hq4. unfold w3. simpl. rewrite Hq2, Hq1.
      by rewrite <- app_assoc.
    + exists m4. split; [|done].
      rewrite Hv6, Hv5, Hv4. unfold w3. simpl. by rewrite Hv2, Hv1.
  - destruct (PipelineFacts.conclude_frame filename r w2) as (_ & Hq6 & _ & _ & Hv6 & _).
    simpl in Hq6, Hv6. split.
    + exists m2. split; [congruence|lia].
    + exists []. rewrite app_nil_r. split; [congruence|simpl; lia].
Qed.

(** X14. The outcome tells what was moved: [Moved p] comes with exactly
    one printed move, to [p]; every other outcome comes with none.  A
    document that is skipped, for a missing answer or as unreadable,
    leaves the file system as it was. *)
Theorem process_pdf_moves `{Platform} (filename : string) (w : World) :
  let w' := (process_pdf filename w).2 in
  match (process_pdf filename w).1 with
  | Moved p => filed w' = filed w ++ [p]
  | SkippedLLMError | SkippedUnreadable => filed w' = filed w ∧ fs w' = fs w
  | Caught _ => filed w' = filed w
  end.
Proof.
  intros w'. unfold w'.
  destruct (RunFacts.process_pdf_shape filename w)
    as [(-> & Hf & Hm)|(r & w0 & -> & Hf & Hm & _)]; [done|].
  pose proof (RunFacts.conclude_filed filename r w0) as Hc.
  destruct (conclude filename r w0).1; try done.
  - destruct Hc as [Hc1 Hc2]. split; congruence.
  - congruence.
  - congruence.
Qed.

(** X15. A first answer that is truthy, holds neither trigger word and
    is no object, or is an object whose [category] is no text, makes
    [is_unreadable] raise: the document ends in the [except] branch
    with an [AttributeError], nothing is moved and the file system is
    as before. *)
Theorem malformed_result_is_caught `{Platform} (filename : string) (w : World)
    (body : string) (r : json) (rest : list chat_reply) :
  chat_replies w = ChatBody body (Some r) :: rest →
  Py.truthy r = true →
  is_ambiguous r = false →
  (∀ fields, r ≠ JObject fields)
  ∨ (∃ fields c, r = JObject fields
                 ∧ Py.lookup "category" fields = Some c
                 ∧ ∀ s, c ≠ JString s) →
  let w' := (process_pdf filename w).2 in
  (process_pdf filename w).1 = Caught AttributeError
  ∧ fs w' = fs w ∧ filed w' = filed w.
Proof.
  intros Hw Ht Ha Hbad w'. unfold w'.
  assert (Hraise : is_unreadable r = Raise AttributeError).
  { destruct Hbad as [Hno|(fields & c & -> & Hc & Hs)].
    - destruct r as [| | | | | |fields]; try done. by destruct (Hno fields).
    - simpl. rewrite Hc. simpl.
      destruct c as [| | | |s| |]; try done. by destruct (Hs s). }
  destruct (RunFacts.process_pdf_shape filename w)
    as [(Ho & _)|(r0 & w0 & -> & Hf & Hm & _ & Hr0)].
  - exfalso. destruct (OutcomeFacts.process_pdf_plain filename w) as (_ & Hc & _);
      [by rewrite Hw..|].
    rewrite PipelineFacts.process_pdf_steps in Ho. cbv zeta in Ho.
    destruct (OutcomeFacts.before_first_llm filename w) as [_ Hc1].
    destruct (PipelineFacts.llm_frame
                (extract_text_with_pypdf filename (say (Processing filename) w)).1
                (extract_text_with_pypdf filename (say (Processing filename) w)).2)
      as (Hv & _).
    rewrite Hv, Hc1, Hw in Ho. simpl in Ho. rewrite Ht, Ha in Ho. simpl in Ho.
    unfold conclude in Ho. rewrite Hraise in Ho. done.
  - rewrite Hw in Hr0. simpl in Hr0. rewrite (Hr0 Ha).
    unfold conclude. rewrite Hraise. simpl.
    split; [done|]. split; [done|].
    by rewrite PipelineFacts.filed_say, app_nil_r.
Qed.

Lemma malformed_result_is_caught_witness :
  (@process_pdf Demo.platform Demo.statement_path
     (Demo.set_replies [ChatBody "[1]" (Some (JArray [JInt 1]))] Demo.statement_world)).1
  = Caught AttributeError.
Proof.
  refine (proj1 (@malformed_result_is_caught Demo.platform Demo.statement_path
                   (Demo.set_replies [ChatBody "[1]" (Some (JArray [JInt 1]))]
                      Demo.statement_world)
                   "[1]" (JArray [JInt 1]) [] _ _ _ _)).
  - reflexivity.
  - reflexivity.
  - reflexivity.
  - left. discriminate.
Defined.

(** X16. A batch hands to [process_pdf] exactly the entries of the
    listing whose name, in lower case, ends in [.pdf], each once and in
    the order of the listing, under its path in [INPUT_DIR]; however a
    document ends, the ones after it are processed. *)
Theorem process_listing_covers `{Platform} (names : list string) (w : World) :
  (process_listing names w).1.*1
  = (λ name, path_join INPUT_DIR [name])
    <$> filter (λ name, Py.endswith ".pdf" (Str.lower name) = true) names.
Proof.
  revert w. induction names as [|name names IH]; intros w; [done|].
  rewrite filter_cons. cbn [process_listing].
  destruct (Py.endswith ".pdf" (Str.lower name)) eqn:Hpdf.
  - rewrite decide_True by done.
    destruct (process_pdf _ w) as [o w1].
    specialize (IH (say BlankLine w1)).
    destruct (process_listing names _) as [log w2].
    cbn [fst] in *. rewrite !fmap_cons. cbn [fst]. by f_equal.
  - rewrite decide_False by done. apply IH.
Qed.

(** ** The trigger of the retry *)

Module TriggerFacts.

(** [occurs u s]: the text [u] is found in [s]. *)
Lemma occurs_app_l u s a :
  (∃ x y, s = x +:+ u +:+ y) → ∃ x y, a +:+ s = x +:+ u +:+ y.
Proof. intros (x & y & ->). exists (a +:+ x), y. by rewrite StrFacts.app_assoc. Qed.

Lemma occurs_app_r u s b :
  (∃ x y, s = x +:+ u +:+ y) → ∃ x y, s +:+ b = x +:+ u +:+ y.
Proof.
  intros (x & y & ->). exists x, (y +:+ b). by rewrite !StrFacts.app_assoc.
Qed.

Lemma map_app f s t : Str.map f (s +:+ t) = Str.map f s +:+ Str.map f t.
Proof.
  induction s as [|c s IH]; [done|].
  rewrite StrFacts.app_cons. simpl. rewrite IH. by rewrite StrFacts.app_cons.
Qed.

(** A text whose image under [map] is a concatenation splits the same
    way. *)
Lemma map_split f : ∀ s a b,
  Str.map f s = a +:+ b →
  ∃ s1 s2, s = s1 +:+ s2 ∧ Str.map f s1 = a ∧ Str.map f s2 = b.
Proof.
  induction s as [|c s IH]; intros a b Hs.
  - destruct a; [|done]. destruct b; [|done]. by exists "", "".
  - destruct a as [|x a].
    + exists "", (String c s). done.
    + rewrite StrFacts.app_cons in Hs. simpl in Hs. injection Hs as <- Hs.
      apply IH in Hs as (s1 & s2 & -> & <- & <-).
      by exists (String c s1), s2.
Qed.

Lemma occurs_lower u s :
  (∃ x y, s = x +:+ u +:+ y) →
  ∃ x y, Str.lower s = x +:+ Str.lower u +:+ y.
Proof.
  intros (x & y & ->). exists (Str.lower x), (Str.lower y).
  unfold Str.lower. by rewrite !map_app.
Qed.

(** A character that is a letter in lower case is printed by [repr] as
    it is. *)
Lemma repr_char_letter q c :
  q = Py.quote ∨ q = Py.dquote →
  is_letter (Char.py_lower_char c) = true →
  Py.repr_char q c = String c "".
Proof.
  intros [-> | ->];
    destruct c as [[] [] [] [] [] [] [] []]; vm_compute; congruence.
Qed.

Lemma repr_chars_app q s t :
  Py.repr_chars q (s +:+ t) = Py.repr_chars q s +:+ Py.repr_chars q t.
Proof.
  induction s as [|c s IH]; [done|].
  rewrite StrFacts.app_cons. simpl. rewrite IH. by rewrite StrFacts.app_assoc.
Qed.

Lemma repr_chars_letters q u :
  q = Py.quote ∨ q = Py.dquote →
  Str.forallb is_letter (Str.lower u) = true →
  Py.repr_chars q u = u.
Proof.
  intros Hq. induction u as [|c u IH]; [done|]. simpl.
  intros [Hc Hu]%andb_true_iff.
  rewrite (repr_char_letter q c) by done. by rewrite IH.
Qed.

(** A word of letters found in a text, in whatever letter case, is
    found in what [repr] prints for the text. *)
Lemma repr_str_keeps u v :
  Str.forallb is_letter (Str.lower u) = true →
  (∃ x y, v = x +:+ u +:+ y) →
  ∃ x y, Py.repr_str v = x +:+ u +:+ y.
Proof.
  intros Hu (x & y & ->). unfold Py.repr_str.
  cbv zeta.
  match goal with
  | |- context [if ?b then Py.dquote else Py.quote] =>
      set (q := if b then Py.dquote else Py.quote)
  end.
  assert (Hq : q = Py.quote ∨ q = Py.dquote).
  { unfold q. destruct (_ && _); auto. }
  rewrite !repr_chars_app, (repr_chars_letters q u) by done.
  exists (String q (Py.repr_chars q x)), (Py.repr_chars q y +:+ String q "").
  by rewrite !StrFacts.app_cons, !StrFacts.app_assoc.
Qed.

Lemma join_occurs sep s : ∀ l, s ∈ l → ∃ x y, Str.join sep l = x +:+ s +:+ y.
Proof.
  induction l as [|a l IH]; intros Hin; [by apply elem_of_nil in Hin|].
  apply elem_of_cons in Hin as [->|Hin].
  - destruct l as [|b l]; simpl.
    + exists "", "". by rewrite StrFacts.app_nil_r.
    + by exists "", (sep +:+ Str.join sep (b :: l)).
  - destruct (IH Hin) as (x & y & Hj).
    destruct l as [|b l]; [by apply elem_of_nil in Hin|].
    change (Str.join sep (a :: b :: l)) with (a +:+ sep +:+ Str.join sep (b :: l)).
    rewrite Hj. exists (a +:+ sep +:+ x), y. by rewrite !StrFacts.app_assoc.
Qed.

Lemma lookup_elem key fields v :
  Py.lookup key fields = Some v → (key, v) ∈ fields.
Proof.
  induction fields as [|[k x] fields IH]; [done|]. simpl.
  case_bool_decide as Hk.
  - intros [= ->]. subst. apply elem_of_cons. by left.
  - intros Hl. apply elem_of_cons. right. by apply IH.
Qed.

End TriggerFacts.

(** X17. The trigger looks into every field and does not mind the
    letter case: when the value under some key of the first result is a
    text in which ["unknown"] or ["unidentified"] occurs once the text
    is put in lower case, the result is ambiguous, whatever the key
    and the other fields are. *)
Theorem trigger_reads_every_field (fields : list (string * json))
    (key value word : string) :
  word = "unknown" ∨ word = "unidentified" →
  Py.lookup key fields = Some (JString value) →
  Str.contains word (Str.lower value) = true →
  is_ambiguous (JObject fields) = true.
Proof.
  intros Hword Hl Hc.
  apply StrFacts.contains_spec in Hc as (pre & post & Hv).
  apply TriggerFacts.map_split in Hv as (v1 & v23 & -> & <- & Hv).
  apply TriggerFacts.map_split in Hv as (u & v3 & -> & Hu & <-).
  assert (Hletters : Str.forallb is_letter (Str.lower u) = true).
  { unfold Str.lower. rewrite Hu. by destruct Hword as [-> | ->]. }
  assert (Hocc : ∃ x y, Str.lower (Py.str (JObject fields))
                        = x +:+ Str.lower u +:+ y).
  { apply TriggerFacts.occurs_lower.
    change (Py.str (JObject fields))
      with ("{" +:+ Str.join ", "
                     (map (λ kv, Py.repr_str (fst kv) +:+ ": " +:+ Py.repr (snd kv))
                        fields) +:+ "}").
    apply TriggerFacts.occurs_app_l, TriggerFacts.occurs_app_r.
    apply TriggerFacts.lookup_elem in Hl.
    assert (Hin : Py.repr_str key +:+ ": " +:+ Py.repr_str (v1 +:+ u +:+ v3)
                  ∈ map (λ kv, Py.repr_str (fst kv) +:+ ": " +:+ Py.repr (snd kv))
                      fields).
    { apply list_elem_of_fmap. by exists (key, JString (v1 +:+ u +:+ v3)). }
    destruct (TriggerFacts.join_occurs ", " _ _ Hin) as (x & y & ->).
    apply TriggerFacts.occurs_app_l, TriggerFacts.occurs_app_r.
    apply TriggerFacts.occurs_app_l, TriggerFacts.occurs_app_l.
    apply TriggerFacts.repr_str_keeps; [done|]. by exists v1, v3. }
  unfold Str.lower in Hocc at 2. rewrite Hu in Hocc.
  apply PipelineFacts.is_ambiguous_spec.
  destruct Hword as [-> | ->]; [left|right]; exact Hocc.
Qed.

Lemma trigger_reads_every_field_witness :
  is_ambiguous Fixtures.vendor_unknown = true.
Proof.
  refine (trigger_reads_every_field
            [("category", JString "Invoice"); ("date", JString "2023-04-01");
             ("filename", JString "invoice.pdf"); ("vendor", JString "UNKNOWN Co")]
            "vendor" "UNKNOWN Co" "unknown" _ _ _).
  - by left.
  - reflexivity.
  - reflexivity.
Defined.

(** ** The three formats *)

Module DigitFacts.

Lemma digit_not_hyphen c :
  Char.py_isdecimal c = true → bool_decide (hyphen = c) = false.
Proof. destruct c as [[] [] [] [] [] [] [] []]; vm_compute; congruence. Qed.

Lemma digits_inv n s :
  digits (S n) s = true →
  ∃ c s', s = String c s' ∧ Char.py_isdecimal c = true ∧ digits n s' = true.
Proof.
  unfold digits. destruct s as [|c s']; [done|]. simpl.
  intros [Hl [Hc Hs]%andb_true_iff]%andb_true_iff.
  exists c, s'. by rewrite Hl, Hc, Hs.
Qed.

Lemma digits_0 s : digits 0 s = true → s = "".
Proof. by destruct s. Qed.

Section Shaped.

Variable t0 : ascii.
Variable p : Re.pattern.
Hypothesis p_shape : Re.shape t0 p = true.

(** Right after a word character no match starts. *)
Lemma after_word prev s :
  Re.word_at prev = true → Re.match_here p prev s = None.
Proof.
  intros Hw. destruct p as [|[| |] [|[| |] p']]; try done.
  simpl. rewrite Hw. destruct s as [|c s]; simpl; [done|].
  destruct (Char.py_isword c) eqn:Hc; simpl; [done|].
  destruct (Char.py_isdecimal c) eqn:Hd; [|done].
  apply CharFacts.isdecimal_isword in Hd. congruence.
Qed.

Lemma search_after_word prev c s :
  Re.word_at prev = true →
  Re.search p prev (String c s) = Re.search p (Some c) s.
Proof. intros Hw. simpl. unfold Re.matches. by rewrite after_word. Qed.

Lemma search_start prev c s :
  Re.match_here p prev (String c s) = None →
  Re.search p prev (String c s) = Re.search p (Some c) s.
Proof. intros Hm. simpl. unfold Re.matches. by rewrite Hm. Qed.

Lemma search_end prev : Re.search p prev "" = false.
Proof. simpl. unfold Re.matches. by rewrite (ReFacts.shape_empty t0). Qed.

Lemma sub_go_match repl prev c s k :
  Re.match_here p prev (String c s) = Some (S k) →
  Re.sub_go p repl prev 0 (String c s) = repl +:+ Re.sub_go p repl (Some c) k s.
Proof. intros Hm. simpl. by rewrite Hm. Qed.

(** Passing over all that is left gives the empty text. *)
Lemma sub_go_skip_end repl : ∀ s prev,
  Re.sub_go p repl prev (String.length s) s = "".
Proof.
  induction s as [|c s IH]; intros prev; simpl; [|apply IH].
  by rewrite (ReFacts.shape_empty t0).
Qed.

End Shaped.

End DigitFacts.

Ltac split_digits H :=
  repeat (apply DigitFacts.digits_inv in H as (? & ? & -> & ? & H));
  apply DigitFacts.digits_0 in H as ->.

Ltac digit_step :=
  match goal with
  | H : Char.py_isdecimal ?c = true |- context [Char.py_isdecimal ?c] => rewrite H
  | H : Char.py_isdecimal ?c = true |- context [Char.py_isword ?c] =>
      rewrite (CharFacts.isdecimal_isword c H)
  | H : Char.py_isdecimal ?c = true |- context [bool_decide (hyphen = ?c)] =>
      rewrite (DigitFacts.digit_not_hyphen c H)
  | |- context [bool_decide (hyphen = "-"%char)] =>
      rewrite (bool_decide_eq_true_2 (hyphen = "-"%char) eq_refl)
  end.

(** Evaluate [match_here] on a text of named digits and hyphens. *)
Ltac run_match := cbn; repeat (digit_step; cbn); exact eq_refl.

(** Walk [search] over such a text. *)
Ltac walk_search shape_lemma :=
  repeat first
    [ rewrite (DigitFacts.search_end bracket _ shape_lemma)
    | rewrite (DigitFacts.search_after_word bracket _ shape_lemma)
        by (simpl; apply CharFacts.isdecimal_isword; assumption)
    | rewrite (DigitFacts.search_start _) by run_match ];
  reflexivity.


Ltac flatten_app := unfold String.app; cbn [String.append].

Lemma ssn_matches a b c :
  digits 3 a = true → digits 2 b = true → digits 4 c = true →
  Re.sub SSN_RE "[REDACTED SSN]" (a +:+ "-" +:+ b +:+ "-" +:+ c) = "[REDACTED SSN]".
Proof.
  intros Ha Hb Hc. split_digits Ha. split_digits Hb. split_digits Hc.
  unfold Re.sub. flatten_app.
  rewrite (DigitFacts.sub_go_match SSN_RE _ _ _ _ 10) by run_match.
  match goal with
  | |- context [Re.sub_go SSN_RE ?r ?prev 10 ?s] =>
      change (Re.sub_go SSN_RE r prev 10 s)
        with (Re.sub_go SSN_RE r prev (String.length s) s)
  end.
  by rewrite (DigitFacts.sub_go_skip_end bracket SSN_RE RedactFacts.SSN_shape).
Qed.

Lemma account_matches s :
  digits 9 s = true →
  Re.search SSN_RE None s = false ∧ Re.search CARD_RE None s = false
  ∧ Re.sub ACCOUNT_RE "[REDACTED ACCOUNT]" s = "[REDACTED ACCOUNT]".
Proof.
  intros Hs. split_digits Hs. split; [|split].
  - walk_search RedactFacts.SSN_shape.
  - walk_search RedactFacts.CARD_shape.
  - unfold Re.sub.
    rewrite (DigitFacts.sub_go_match ACCOUNT_RE _ _ _ _ 8) by run_match.
    match goal with
    | |- context [Re.sub_go ACCOUNT_RE ?r ?prev 8 ?s] =>
        change (Re.sub_go ACCOUNT_RE r prev 8 s)
          with (Re.sub_go ACCOUNT_RE r prev (String.length s) s)
    end.
    by rewrite (DigitFacts.sub_go_skip_end bracket ACCOUNT_RE RedactFacts.ACCOUNT_shape).
Qed.

Lemma card_matches a b c d :
  digits 4 a = true → digits 4 b = true → digits 4 c = true → digits 4 d = true →
  Re.search SSN_RE None (a +:+ "-" +:+ b +:+ "-" +:+ c +:+ "-" +:+ d) = false
  ∧ Re.sub CARD_RE "[REDACTED CARD]" (a +:+ "-" +:+ b +:+ "-" +:+ c +:+ "-" +:+ d)
    = "[REDACTED CARD]".
Proof.
  intros Ha Hb Hc Hd.
  split_digits Ha. split_digits Hb. split_digits Hc. split_digits Hd.
  flatten_app. split.
  - walk_search RedactFacts.SSN_shape.
  - unfold Re.sub.
    rewrite (DigitFacts.sub_go_match CARD_RE _ _ _ _ 18) by run_match.
    match goal with
    | |- context [Re.sub_go CARD_RE ?r ?prev 18 ?s] =>
        change (Re.sub_go CARD_RE r prev 18 s)
          with (Re.sub_go CARD_RE r prev (String.length s) s)
    end.
    by rewrite (DigitFacts.sub_go_skip_end bracket CARD_RE RedactFacts.CARD_shape).
Qed.

(** X18. The redactor is exact on the three formats, whatever the
    digits are: three digits, two and four, joined by hyphens, give the
    SSN replacement; four groups of four digits give the card
    replacement; nine digits in a row give the account replacement. *)
Theorem redact_exact_formats :
  (∀ a b c, digits 3 a = true → digits 2 b = true → digits 4 c = true →
     redact_sensitive_info (a +:+ "-" +:+ b +:+ "-" +:+ c) = "[REDACTED SSN]")
  ∧ (∀ a b c d,
       digits 4 a = true → digits 4 b = true → digits 4 c = true →
       digits 4 d = true →
       redact_sensitive_info (a +:+ "-" +:+ b +:+ "-" +:+ c +:+ "-" +:+ d)
       = "[REDACTED CARD]")
  ∧ (∀ s, digits 9 s = true → redact_sensitive_info s = "[REDACTED ACCOUNT]").
Proof.
  split; [|split].
  - intros a b c Ha Hb Hc. unfold redact_sensitive_info.
    rewrite ssn_matches by done. vm_compute. reflexivity.
  - intros a b c d Ha Hb Hc Hd. unfold redact_sensitive_info.
    destruct (card_matches a b c d Ha Hb Hc Hd) as [Hs Hm].
    unfold Re.sub at 3.
    rewrite (ReFacts.sub_fixed bracket SSN_RE _ RedactFacts.SSN_shape _ None Hs).
    rewrite Hm. vm_compute. reflexivity.
  - intros s Hs. unfold redact_sensitive_info.
    destruct (account_matches s Hs) as (H1 & H2 & Hm).
    unfold Re.sub at 3.
    rewrite (ReFacts.sub_fixed bracket SSN_RE _ RedactFacts.SSN_shape _ None H1).
    unfold Re.sub at 2.
    rewrite (ReFacts.sub_fixed bracket CARD_RE _ RedactFacts.CARD_shape _ None H2).
    exact Hm.
Qed.

Module RunOfDigits.

(** Digits only, and then a hyphen to match: that fails. *)
Lemma digits_then_hyphen n p' : ∀ s prev,
  Str.forallb Char.py_isdecimal s = true →
  Re.match_here (Re.rep n Re.Digit ++ Re.Lit hyphen :: p') prev s = None.
Proof.
  induction n as [|n IH]; intros s prev Hs; simpl.
  - destruct s as [|c s]; [done|].
    apply andb_true_iff in Hs as [Hc _].
    by rewrite (DigitFacts.digit_not_hyphen c Hc).
  - destruct s as [|c s]; [done|].
    apply andb_true_iff in Hs as [Hc Hs]. rewrite Hc.
    change (replicate n Re.Digit) with (Re.rep n Re.Digit).
    by rewrite IH.
Qed.

(** Exactly [n] digits and then the end of the word: in a text of
    digits only, that needs a text of [n] digits. *)
Lemma digits_then_end n : ∀ s prev,
  Str.forallb Char.py_isdecimal s = true →
  (n = 0 → Re.word_at prev = true) →
  String.length s ≠ n →
  Re.match_here (Re.rep n Re.Digit ++ [Re.WordB]) prev s = None.
Proof.
  induction n as [|n IH]; intros s prev Hs Hw Hlen; simpl.
  - destruct s as [|c s]; [done|]. simpl.
    apply andb_true_iff in Hs as [Hc _].
    by rewrite Hw, (CharFacts.isdecimal_isword c Hc).
  - destruct s as [|c s]; [done|].
    apply andb_true_iff in Hs as [Hc Hs]. rewrite Hc.
    change (replicate n Re.Digit) with (Re.rep n Re.Digit).
    rewrite IH; [done..| |].
    + intros _. simpl. by apply CharFacts.isdecimal_isword.
    + simpl in Hlen. lia.
Qed.

Lemma front_none p' prev s :
  Re.match_here p' prev s = None → Re.match_here (Re.WordB :: p') prev s = None.
Proof. intros Hm. simpl. rewrite Hm. by destruct (xorb _ _). Qed.

(** In a text of digits a shaped pattern can only match at the front. *)
Lemma search_digits t0 p : ∀ s prev,
  Re.shape t0 p = true →
  Str.forallb Char.py_isdecimal s = true →
  Re.match_here p prev s = None →
  Re.search p prev s = false.
Proof.
  intros s prev Hp Hs Hm.
  destruct s as [|c s].
  - simpl. unfold Re.matches. by rewrite Hm.
  - simpl. unfold Re.matches. rewrite Hm. simpl.
    apply andb_true_iff in Hs as [Hc Hs].
    assert (Hw : Re.word_at (Some c) = true) by by apply CharFacts.isdecimal_isword.
    clear Hm. revert c Hc Hw. induction s as [|d s IH]; intros c Hc Hw.
    + by rewrite (DigitFacts.search_end t0).
    + apply andb_true_iff in Hs as [Hd Hs].
      rewrite (DigitFacts.search_after_word t0) by done.
      apply IH; [done..|]. by apply CharFacts.isdecimal_isword.
Qed.

End RunOfDigits.

(** X19. Only a run of exactly nine digits is an account number to the
    redactor: a text that consists of digits and has any other length,
    a ten-digit number for one, goes through unchanged. *)
Theorem redact_other_digit_runs (s : string) :
  Str.forallb Char.py_isdecimal s = true →
  String.length s ≠ 9 →
  redact_sensitive_info s = s.
Proof.
  intros Hs Hlen. apply RedactFacts.redact_fixed.
  - apply (RunOfDigits.search_digits bracket); [done..|].
    apply (RunOfDigits.front_none
             (Re.rep 3 Re.Digit ++ Re.Lit hyphen
                :: (Re.rep 2 Re.Digit ++ [Re.Lit hyphen] ++ Re.rep 4 Re.Digit
                    ++ [Re.WordB]))).
    by apply RunOfDigits.digits_then_hyphen.
  - apply (RunOfDigits.search_digits bracket); [done..|].
    apply (RunOfDigits.front_none
             (Re.rep 4 Re.Digit ++ Re.Lit hyphen
                :: (Re.rep 4 Re.Digit ++ [Re.Lit hyphen] ++ Re.rep 4 Re.Digit
                    ++ [Re.Lit hyphen] ++ Re.rep 4 Re.Digit ++ [Re.WordB]))).
    by apply RunOfDigits.digits_then_hyphen.
  - apply (RunOfDigits.search_digits bracket); [done..|].
    apply (RunOfDigits.front_none (Re.rep 9 Re.Digit ++ [Re.WordB])).
    by apply RunOfDigits.digits_then_end.
Qed.

Lemma redact_other_digit_runs_witness :
  redact_sensitive_info "1234567890" = "1234567890".
Proof.
  refine (redact_other_digit_runs "1234567890" _ _).
  - reflexivity.
  - simpl. lia.
Defined.
